(** * LCARS-at-Home: deployment configuration and health verification

    A shallow embedding of the resolution, probing, discovery, artifact
    and health-report code of

      - scripts/deploy_config.py   (module [DeployConfig])
      - scripts/health_check.py    (module [HealthCheck])
      - lcars_guide.py             (module [LcarsGuide])

    Python [str] is [string], [int] is [Z], [Optional[T]] is [option T],
    and a [dict] with string keys is an association list kept in
    insertion order (module [Py]).  Calls that leave the process
    (sockets, HTTP, docker) are answered by an explicit environment
    record. *)

From Stdlib Require Import ZArith QArith List String Ascii Bool Lia DecimalString.
Import ListNotations.
Open Scope string_scope.
Open Scope Z_scope.

(* ================================================================== *)
(** ** Python values and dictionaries                                  *)
(* ================================================================== *)

Module Py.

(** The line feed and the double quote, which a string literal cannot
    spell. *)
Definition LF : ascii := ascii_of_nat 10.
Definition nl : string := String LF EmptyString.
Definition dquote : string := String (ascii_of_nat 34) EmptyString.

(** [str(n)] for an [int]. *)
Definition str_of_int (n : Z) : string := NilZero.string_of_int (Z.to_int n).

(** Truthiness of an [Optional[str]]: [None] and the empty string are
    false.  The result carries the value that the test let through. *)
Definition truthy_str (o : option string) : option string :=
  match o with
  | Some s => if String.eqb s "" then None else Some s
  | None => None
  end.

(** Truthiness of an [Optional[int]]: [None] and [0] are false. *)
Definition truthy_int (o : option Z) : option Z :=
  match o with
  | Some n => if Z.eqb n 0 then None else Some n
  | None => None
  end.

(** [s.startswith(p)]. *)
Definition startswith (s p : string) : bool := String.prefix p s.

(** [x in xs] for a list of strings. *)
Definition str_in (x : string) (xs : list string) : bool :=
  existsb (String.eqb x) xs.

(** [x in xs] for a list of integers. *)
Definition int_in (x : Z) (xs : list Z) : bool := existsb (Z.eqb x) xs.

(** A [dict] with [str] keys: the items in insertion order. *)
Definition dict (V : Type) : Type := list (string * V).

Section Dict.
Context {V : Type}.

Definition keys (d : dict V) : list string := map fst d.

(** [d.get(k)] *)
Fixpoint get (k : string) (d : dict V) : option V :=
  match d with
  | [] => None
  | (k', v) :: rest => if String.eqb k k' then Some v else get k rest
  end.

(** [k in d] *)
Definition mem (k : string) (d : dict V) : bool :=
  match get k d with Some _ => true | None => false end.

(** [d[k] = v]: an existing key keeps its place, a new key goes last. *)
Fixpoint set (k : string) (v : V) (d : dict V) : dict V :=
  match d with
  | [] => [(k, v)]
  | (k', v') :: rest =>
      if String.eqb k k' then (k', v) :: rest else (k', v') :: set k v rest
  end.

(** In-place change of the object stored under [k] (no effect when the
    key is absent). *)
Fixpoint update (k : string) (f : V -> V) (d : dict V) : dict V :=
  match d with
  | [] => []
  | (k', v') :: rest =>
      if String.eqb k k' then (k', f v') :: rest
      else (k', v') :: update k f rest
  end.

(** Every Python dict has pairwise distinct keys. *)
Definition wf (d : dict V) : Prop := NoDup (keys d).
End Dict.

(** [str.format] for templates whose only replacement fields are
    the automatic [{}]: each one takes the next argument.  (Python raises
    IndexError for a field beyond the arguments; here such a field is
    dropped.  No template of the repository has one.) *)
Fixpoint format (tmpl : string) (args : list string) : string :=
  match tmpl with
  | EmptyString => EmptyString
  | String c rest =>
      match rest with
      | String c' rest' =>
          if (Ascii.eqb c "{" && Ascii.eqb c' "}")%bool then
            match args with
            | a :: args' => a ++ format rest' args'
            | [] => format rest' []
            end
          else String c (format rest args)
      | EmptyString => String c EmptyString
      end
  end.

(** The documents that [json.dump] writes and [json.load] reads back:
    the two are inverse to each other on these trees, and a file is
    represented by the tree it holds. *)
#[warnings="-register-all"]
Inductive json : Type :=
| JNull
| JBool (b : bool)
| JInt (n : Z)
| JStr (s : string)
| JArr (items : list json)
| JObj (members : list (string * json)).

(** The values that reach [validate_port]: what a caller can pass for a
    port.  A finite float is the rational it denotes. *)
Inductive value : Type :=
| VNone
| VBool (b : bool)
| VInt (n : Z)
| VFloat (q : Q)
| VInfinity
| VNan
| VStr (s : string)
| VObject.

(** What [int(v)] does: the integer, or the exception it raises. *)
Inductive IntOutcome : Type :=
| IntOk (n : Z)
| IntValueError
| IntTypeError
| IntOverflowError.

(** [int(v)].  A float is cut towards zero, a bool is 0 or 1, a string
    goes through the parser of integer literals ([parse], [None] when it
    raises ValueError), infinity raises OverflowError, a NaN ValueError,
    and [None] or an object without integer conversion TypeError. *)
Definition int (parse : string -> option Z) (v : value) : IntOutcome :=
  match v with
  | VNone => IntTypeError
  | VBool b => IntOk (if b then 1 else 0)
  | VInt n => IntOk n
  | VFloat q => IntOk (Z.quot (Qnum q) (Zpos (Qden q)))
  | VInfinity => IntOverflowError
  | VNan => IntValueError
  | VStr s =>
      match parse s with
      | Some n => IntOk n
      | None => IntValueError
      end
  | VObject => IntTypeError
  end.

End Py.

(* ================================================================== *)
(** ** scripts/deploy_config.py                                        *)
(* ================================================================== *)

Module DeployConfig.
Import Py.

(** [@dataclass class ServiceConfig] *)
Record ServiceConfig : Type := mkServiceConfig {
  name : string;
  description : string;
  default_host : string;
  default_port : Z;
  health_check_url : string;
  required : bool;
  can_use_existing : bool;
  detected_host : option string;
  detected_port : option Z;
  use_existing : bool;
  custom_host : option string;
  custom_port : option Z
}.

(** Field assignments used by the code. *)
Definition set_detected_host (v : option string) (s : ServiceConfig) :=
  mkServiceConfig (name s) (description s) (default_host s) (default_port s)
    (health_check_url s) (required s) (can_use_existing s)
    v (detected_port s) (use_existing s) (custom_host s) (custom_port s).

Definition set_detected_port (v : option Z) (s : ServiceConfig) :=
  mkServiceConfig (name s) (description s) (default_host s) (default_port s)
    (health_check_url s) (required s) (can_use_existing s)
    (detected_host s) v (use_existing s) (custom_host s) (custom_port s).

Definition set_use_existing (v : bool) (s : ServiceConfig) :=
  mkServiceConfig (name s) (description s) (default_host s) (default_port s)
    (health_check_url s) (required s) (can_use_existing s)
    (detected_host s) (detected_port s) v (custom_host s) (custom_port s).

Definition set_custom_host (v : option string) (s : ServiceConfig) :=
  mkServiceConfig (name s) (description s) (default_host s) (default_port s)
    (health_check_url s) (required s) (can_use_existing s)
    (detected_host s) (detected_port s) (use_existing s) v (custom_port s).

Definition set_custom_port (v : option Z) (s : ServiceConfig) :=
  mkServiceConfig (name s) (description s) (default_host s) (default_port s)
    (health_check_url s) (required s) (can_use_existing s)
    (detected_host s) (detected_port s) (use_existing s) (custom_host s) v.

(** [ServiceConfig.effective_host] *)
Definition effective_host (self : ServiceConfig) : string :=
  match truthy_str (custom_host self) with
  | Some h => h
  | None =>
      if use_existing self then
        match truthy_str (detected_host self) with
        | Some h => h
        | None => default_host self
        end
      else default_host self
  end.

(** [ServiceConfig.effective_port] *)
Definition effective_port (self : ServiceConfig) : Z :=
  match truthy_int (custom_port self) with
  | Some p => p
  | None =>
      match truthy_int (detected_port self) with
      | Some p => p
      | None => default_port self
      end
  end.

(** [ServiceConfig.connection_string] *)
Definition connection_string (self : ServiceConfig) : string :=
  effective_host self ++ ":" ++ str_of_int (effective_port self).

(** A catalogue entry: the seven positional fields, the rest at their
    dataclass defaults. *)
Definition descriptor (n d h : string) (p : Z) (u : string) (req cue : bool)
  : ServiceConfig :=
  mkServiceConfig n d h p u req cue None None false None None.

(** [DEFAULT_SERVICES] *)
Definition DEFAULT_SERVICES : dict ServiceConfig :=
  [ ("homeassistant",
     descriptor "Home Assistant" "State machine for device control"
       "localhost" 8123 "http://{}:{}/api/" true true);
    ("postgres",
     descriptor "PostgreSQL" "Database for n8n workflows"
       "localhost" 5432 "tcp://{}:{}" true true);
    ("redis",
     descriptor "Redis" "Task queue and caching"
       "localhost" 6379 "tcp://{}:{}" false true);
    ("ollama",
     descriptor "Ollama" "Local LLM inference server"
       "localhost" 11434 "http://{}:{}/api/tags" true true);
    ("n8n",
     descriptor "n8n" "Workflow orchestration"
       "localhost" 5678 "http://{}:{}/healthz" true false);
    ("open-webui",
     descriptor "Open WebUI" "LLM chat interface"
       "localhost" 3000 "http://{}:{}/v1/models" true true);
    ("whisper",
     descriptor "Whisper STT" "Speech-to-text service"
       "localhost" 10300 "tcp://{}:{}" false true);
    ("piper",
     descriptor "Piper TTS" "Text-to-speech service"
       "localhost" 10200 "tcp://{}:{}" false true);
    ("openwakeword",
     descriptor "openWakeWord" "Wake word detection"
       "localhost" 10400 "tcp://{}:{}" false true) ].

(** *** Probing *)

(** What [urllib.request.urlopen] does with a request: it returns a
    response object, or raises [HTTPError] (an error status answered by
    the server), [URLError] (no answer at the network layer), or some
    other exception. *)
Inductive UrlopenOutcome : Type :=
| UrlResponse (status : Z)
| UrlHTTPError (code : Z) (reason : string)
| UrlURLError (reason : string)
| UrlException (text : string).

(** The parts of a [urllib.parse.urlparse] result that the code reads. *)
Record ParseResult : Type := mkParseResult {
  url_scheme : string;
  url_hostname : option string;
  url_path : string;
  url_query : string
}.

(** The world outside the process, and the one library function whose
    algorithm is not part of this repository. *)
Record Env : Type := mkEnv {
  (** [sock.connect_ex((host, port)) == 0], false on [socket.error] *)
  connect_ok : string -> Z -> bool;
  (** the outcome of [urlopen] for a GET of the URL *)
  urlopen : string -> UrlopenOutcome;
  (** [urllib.parse.urlparse] *)
  urlparse : string -> ParseResult
}.

(** [check_port_available(host, port)] *)
Definition check_port_available (env : Env) (host : string) (port : Z) : bool :=
  connect_ok env host port.

(** [check_http_endpoint(url)] *)
Definition check_http_endpoint (env : Env) (url : string)
  : bool * option string :=
  match urlopen env url with
  | UrlResponse status =>
      if status <? 500 then (true, None)
      else (false, Some ("HTTP " ++ str_of_int status))
  | UrlHTTPError code _ =>
      if int_in code [401; 403; 404] then (true, None)
      else (false, Some ("HTTP " ++ str_of_int code))
  | UrlURLError reason => (false, Some ("Connection failed: " ++ reason))
  | UrlException text => (false, Some text)
  end.

(** [check_service_health(service)], on the calls that return: the
    ValueError that [urlparse] raises for a malformed host, and the
    IndexError or KeyError of [format] for a template with other
    replacement fields than two automatic ones, leave the call and are
    not given a result here. *)
Definition check_service_health (env : Env) (service : ServiceConfig)
  : bool * option string :=
  let host := effective_host service in
  let port := effective_port service in
  let '(scheme, hostname) :=
    if (startswith host "http://" || startswith host "https://")%bool then
      let parsed := urlparse env host in
      (if String.eqb (url_scheme parsed) "" then "http" else url_scheme parsed,
       match truthy_str (url_hostname parsed) with
       | Some h => h
       | None => host
       end)
    else ("http", host) in
  if negb (check_port_available env hostname port) then
    (false,
     Some ("Port " ++ str_of_int port ++ " not accessible on " ++ hostname))
  else if startswith (health_check_url service) "tcp://" then (true, None)
  else
    let template_url := format (health_check_url service) ["HOST"; "PORT"] in
    let parsed_template := urlparse env template_url in
    let path :=
      if String.eqb (url_path parsed_template) "" then "/"
      else url_path parsed_template in
    let path :=
      if String.eqb (url_query parsed_template) "" then path
      else path ++ "?" ++ url_query parsed_template in
    let url := scheme ++ "://" ++ hostname ++ ":" ++ str_of_int port ++ path in
    check_http_endpoint env url.

(** *** Discovery *)

(** The body of the loop of [detect_existing_services] for one catalogue
    entry: the object stored under the key.  Building a [ServiceConfig] from
    [asdict] of the template is a field-by-field copy of it. *)
Definition detect_service (env : Env) (service_template : ServiceConfig)
  : ServiceConfig :=
  if negb (can_use_existing service_template) then service_template
  else
    let service := service_template in
    if check_port_available env (default_host service) (default_port service)
    then
      let service := set_detected_host (Some (default_host service)) service in
      let service := set_detected_port (Some (default_port service)) service in
      let '(is_healthy, _) := check_service_health env service in
      if is_healthy then set_use_existing false service else service
    else service.

(** [detect_existing_services()], with the module global it iterates
    over as an argument. *)
Definition detect_existing_services (env : Env)
    (catalogue : dict ServiceConfig) : dict ServiceConfig :=
  fold_left
    (fun detected item => Py.set (fst item) (detect_service env (snd item)) detected)
    catalogue [].

(** *** Orchestration override *)

(** An entry of [port_overrides]. *)
Record PortOverride : Type := mkPortOverride {
  po_service : string;
  internal_port : Z;
  external_port : Z
}.

(** One turn of the first loop of [generate_docker_compose_override]. *)
Definition classify_step (acc : list string * list PortOverride)
    (item : string * ServiceConfig) : list string * list PortOverride :=
  let '(disabled_services, port_overrides) := acc in
  let '(key, service) := item in
  if (use_existing service && can_use_existing service)%bool then
    ((disabled_services ++ [key])%list, port_overrides)
  else if negb (effective_port service =? default_port service) then
    (disabled_services,
     (port_overrides ++
        [mkPortOverride key (default_port service) (effective_port service)])%list)
  else (disabled_services, port_overrides).

Definition classify (services : dict ServiceConfig)
  : list string * list PortOverride :=
  fold_left classify_step services ([], []).

Definition disabled_services (services : dict ServiceConfig) : list string :=
  fst (classify services).

Definition port_overrides (services : dict ServiceConfig) : list PortOverride :=
  snd (classify services).

(** The fixed head of the file. *)
Definition yaml_header : string :=
  "# LCARS Computer - Deployment Configuration Override" ++ nl ++
  "# Auto-generated - do not edit manually" ++ nl ++ nl ++
  "services:" ++ nl.

(** The three lines written for a disabled service. *)
Definition profile_entry (service_key : string) : string :=
  "  " ++ service_key ++ ":" ++ nl ++
  "    profiles:" ++ nl ++
  "      - disabled" ++ nl.

(** [n8n_dependencies] *)
Definition n8n_dependencies (disabled : list string) : list string :=
  ((if negb (str_in "postgres" disabled) then ["postgres"] else []) ++
   (if negb (str_in "redis" disabled) then ["redis"] else []))%list.

(** The text appended by the block that rewrites the dependencies of n8n. *)
Definition n8n_block (disabled : list string) : string :=
  if (str_in "postgres" disabled || str_in "redis" disabled)%bool then
    "  n8n:" ++ nl ++
    match n8n_dependencies disabled with
    | [] => "    depends_on: []" ++ nl
    | deps =>
        fold_left (fun y dep => y ++ "      - " ++ dep ++ nl) deps
          ("    depends_on:" ++ nl)
    end
  else "".

(** The three lines written for a port override. *)
Definition port_entry (o : PortOverride) : string :=
  "  " ++ po_service o ++ ":" ++ nl ++
  "    ports:" ++ nl ++
  "      - " ++ dquote ++ str_of_int (external_port o) ++ ":" ++
     str_of_int (internal_port o) ++ dquote ++ nl.

(** A line of the closing comment block.  The key was read from
    [services], so the lookup finds it. *)
Definition comment_entry (services : dict ServiceConfig) (service_key : string)
  : string :=
  match Py.get service_key services with
  | Some s =>
      "# " ++ service_key ++ ": Using existing at " ++ connection_string s ++ nl
  | None => ""
  end.

(** [generate_docker_compose_override(services)] *)
Definition generate_docker_compose_override (services : dict ServiceConfig)
  : string :=
  let disabled := disabled_services services in
  let overrides := port_overrides services in
  let yaml_content := yaml_header in
  let yaml_content :=
    fold_left (fun y k => y ++ profile_entry k) disabled yaml_content in
  let yaml_content := yaml_content ++ n8n_block disabled in
  let yaml_content :=
    fold_left (fun y o => y ++ port_entry o) overrides yaml_content in
  match disabled with
  | [] => yaml_content
  | _ =>
      fold_left (fun y k => y ++ comment_entry services k) disabled
        (yaml_content ++ nl ++
         "# Disabled services (using existing infrastructure):" ++ nl)
  end.

(** *** Persisted configuration *)

(** [asdict(service)]: the fields in declaration order. *)
Definition json_of_opt_str (o : option string) : json :=
  match o with Some s => JStr s | None => JNull end.

Definition json_of_opt_int (o : option Z) : json :=
  match o with Some n => JInt n | None => JNull end.

Definition asdict (s : ServiceConfig) : dict json :=
  [ ("name", JStr (name s));
    ("description", JStr (description s));
    ("default_host", JStr (default_host s));
    ("default_port", JInt (default_port s));
    ("health_check_url", JStr (health_check_url s));
    ("required", JBool (required s));
    ("can_use_existing", JBool (can_use_existing s));
    ("detected_host", json_of_opt_str (detected_host s));
    ("detected_port", json_of_opt_int (detected_port s));
    ("use_existing", JBool (use_existing s));
    ("custom_host", json_of_opt_str (custom_host s));
    ("custom_port", json_of_opt_int (custom_port s)) ].

(** Reading a JSON value at the annotated type of a field.  The dataclass
    itself stores whatever it is given; a value of another type has no
    counterpart in [ServiceConfig], and no result is given for it. *)
Definition as_str (j : json) : option string :=
  match j with JStr s => Some s | _ => None end.

Definition as_int (j : json) : option Z :=
  match j with JInt n => Some n | _ => None end.

Definition as_bool (j : json) : option bool :=
  match j with JBool b => Some b | _ => None end.

Definition as_opt_str (j : json) : option (option string) :=
  match j with JNull => Some None | JStr s => Some (Some s) | _ => None end.

Definition as_opt_int (j : json) : option (option Z) :=
  match j with JNull => Some None | JInt n => Some (Some n) | _ => None end.

(** A keyword argument of the constructor: the value passed, else the
    field's default; with neither the call raises TypeError ([None]). *)
Definition kwarg {A : Type} (field : string) (conv : json -> option A)
    (default : option A) (kwargs : dict json) : option A :=
  match Py.get field kwargs with
  | Some j => conv j
  | None => default
  end.

Definition field_names : list string :=
  [ "name"; "description"; "default_host"; "default_port";
    "health_check_url"; "required"; "can_use_existing"; "detected_host";
    "detected_port"; "use_existing"; "custom_host"; "custom_port" ].

Notation "x <- e ;; k" :=
  (match e with Some x => k | None => None end)
  (at level 61, e at next level, right associativity, only parsing).

(** The constructor called with the members of a JSON object as keyword
    arguments; [None] stands for the TypeError of an unexpected keyword
    or a missing required one. *)
Definition ServiceConfig_of_kwargs (kwargs : dict json) : option ServiceConfig :=
  if negb (forallb (fun k => str_in k field_names) (keys kwargs)) then None
  else
    n <- kwarg "name" as_str None kwargs ;;
    d <- kwarg "description" as_str None kwargs ;;
    h <- kwarg "default_host" as_str None kwargs ;;
    p <- kwarg "default_port" as_int None kwargs ;;
    u <- kwarg "health_check_url" as_str None kwargs ;;
    req <- kwarg "required" as_bool None kwargs ;;
    cue <- kwarg "can_use_existing" as_bool None kwargs ;;
    dh <- kwarg "detected_host" as_opt_str (Some None) kwargs ;;
    dp <- kwarg "detected_port" as_opt_int (Some None) kwargs ;;
    ue <- kwarg "use_existing" as_bool (Some false) kwargs ;;
    ch <- kwarg "custom_host" as_opt_str (Some None) kwargs ;;
    cp <- kwarg "custom_port" as_opt_int (Some None) kwargs ;;
    Some (mkServiceConfig n d h p u req cue dh dp ue ch cp).

(** The files of interest: the JSON document stored at a path, [None]
    where there is no file (or none that [json.load] accepts). *)
Definition FileSystem : Type := string -> option json.

(** The [services] member built by the dict comprehension. *)
Definition services_document (services : dict ServiceConfig) : dict json :=
  fold_left
    (fun doc item => Py.set (fst item) (JObj (asdict (snd item))) doc)
    services [].

(** [save_deployment_config(services, output_path)] *)
Definition save_deployment_config (services : dict ServiceConfig)
    (output_path : string) (fs : FileSystem) : FileSystem :=
  let config :=
    JObj [ ("version", JStr "1.0");
           ("services", JObj (services_document services)) ] in
  fun path => if String.eqb path output_path then Some config else fs path.

(** The loop of [load_deployment_config]; an exception anywhere ends the
    call with [None]. *)
Fixpoint load_services (items : dict json) (services : dict ServiceConfig)
  : option (dict ServiceConfig) :=
  match items with
  | [] => Some services
  | (key, service_data) :: rest =>
      match service_data with
      | JObj kwargs =>
          s <- ServiceConfig_of_kwargs kwargs ;;
          load_services rest (Py.set key s services)
      | _ => None
      end
  end.

(** [load_deployment_config(config_path)] *)
Definition load_deployment_config (config_path : string) (fs : FileSystem)
  : option (dict ServiceConfig) :=
  match fs config_path with
  | None => None
  | Some data =>
      match data with
      | JObj members =>
          match Py.get "services" members with
          | None => Some []
          | Some (JObj items) => load_services items []
          | Some _ => None
          end
      | _ => None
      end
  end.

(** *** Validation *)

(** [validate_port(port)]; [parse] is the parser of integer literals
    that [int] applies to a string.  ValueError and TypeError are caught;
    [None] when the OverflowError of [int] leaves the call. *)
Definition validate_port (parse : string -> option Z) (port : value)
  : option (bool * option Z * option string) :=
  match int parse port with
  | IntOk port_int =>
      if ((port_int <? 1) || (port_int >? 65535))%bool then
        Some (false, None, Some "Port must be between 1 and 65535")
      else Some (true, Some port_int, None)
  | IntValueError => Some (false, None, Some "Port must be a number")
  | IntTypeError => Some (false, None, Some "Port must be a number")
  | IntOverflowError => None
  end.

(** What [socket.gethostbyname] does: it returns an address, raises
    [socket.gaierror], or raises something else (a UnicodeError for a
    label that is empty or too long). *)
Inductive ResolveOutcome : Type :=
| Resolved
| Gaierror
| ResolveRaises.

(** [validate_hostname(hostname)]; [None] when an exception that the code
    does not catch leaves the call. *)
Definition validate_hostname (gethostbyname : string -> ResolveOutcome)
    (hostname : string) : option (bool * option string) :=
  if String.eqb hostname "" then Some (false, Some "Hostname cannot be empty")
  else if str_in hostname ["localhost"; "127.0.0.1"; "::1"] then
    Some (true, None)
  else
    match gethostbyname hostname with
    | Resolved => Some (true, None)
    | Gaierror => Some (true, None)
    | ResolveRaises => None
    end.

(** *** Containers *)

(** A line of the output of [docker ps]: empty, not JSON (both are
    skipped), or the value that [json.loads] gives. *)
Inductive DockerLine : Type :=
| EmptyLine
| NotJson
| JsonValue (value : json).

(** What running [docker ps -a] comes to: the binary is missing, the
    call times out, or it exits with a code and the lines of its output. *)
Inductive DockerPs : Type :=
| DockerNotFound
| DockerTimeout
| DockerExit (returncode : Z) (stdout_lines : list DockerLine).

(** The record kept for a container. *)
Record ContainerInfo : Type := mkContainerInfo {
  info_id : json;
  info_status : json;
  info_state : json;
  info_image : json;
  info_ports : json
}.

(** [d.get(k, default)] on a JSON object. *)
Definition json_get (k : string) (default : json) (members : dict json)
  : json :=
  match Py.get k members with
  | Some j => j
  | None => default
  end.

(** [str.lower] on one character (code points below 256). *)
Definition lower_char (c : ascii) : ascii :=
  let n := nat_of_ascii c in
  if ((65 <=? n) && (n <=? 90)
      || (192 <=? n) && (n <=? 222) && negb (n =? 215))%nat%bool
  then ascii_of_nat (n + 32)
  else c.

Fixpoint lower (s : string) : string :=
  match s with
  | EmptyString => EmptyString
  | String c rest => String (lower_char c) (lower rest)
  end.

(** [needle in hay] on strings. *)
Fixpoint contains (needle hay : string) : bool :=
  match hay with
  | EmptyString => String.prefix needle EmptyString
  | String _ rest => (String.prefix needle hay || contains needle rest)%bool
  end.

(** The loop of [check_docker_containers] over the lines; [None] when an
    exception that the code does not catch leaves the call (a JSON value
    without [get], a name without [lower]). *)
Fixpoint scan_containers (service_keys : list string)
    (lines : list DockerLine) (containers : dict ContainerInfo)
  : option (dict ContainerInfo) :=
  match lines with
  | [] => Some containers
  | EmptyLine :: rest => scan_containers service_keys rest containers
  | NotJson :: rest => scan_containers service_keys rest containers
  | JsonValue (JObj container) :: rest =>
      match json_get "Names" (JStr "") container with
      | JStr name =>
          if existsb (fun svc => contains svc (lower name)) service_keys then
            scan_containers service_keys rest
              (Py.set name
                 (mkContainerInfo
                    (json_get "ID" JNull container)
                    (json_get "Status" JNull container)
                    (json_get "State" JNull container)
                    (json_get "Image" JNull container)
                    (json_get "Ports" (JStr "") container))
                 containers)
          else scan_containers service_keys rest containers
      | _ => None
      end
  | JsonValue _ :: rest => None
  end.

(** [check_docker_containers()], with the keys of [DEFAULT_SERVICES] as
    an argument. *)
Definition check_docker_containers (ps : DockerPs)
    (service_keys : list string) : option (dict ContainerInfo) :=
  match ps with
  | DockerNotFound => Some []
  | DockerTimeout => Some []
  | DockerExit returncode stdout_lines =>
      if negb (returncode =? 0) then Some []
      else scan_containers service_keys stdout_lines []
  end.

(** *** The constructor and the loader on any document *)

(** The fields that have no default. *)
Definition required_fields : list string :=
  [ "name"; "description"; "default_host"; "default_port";
    "health_check_url"; "required"; "can_use_existing" ].

(** The default of a field that has one. *)
Definition field_default (field : string) : json :=
  if String.eqb field "use_existing" then JBool false else JNull.

(** The constructor as the dataclass has it, with no look at the values:
    the attributes of the new instance in declaration order, which is
    also its [asdict].  [None] stands for the TypeError of an unexpected
    keyword or of a missing argument. *)
Definition construct (kwargs : dict json) : option (dict json) :=
  if (forallb (fun k => str_in k field_names) (keys kwargs)
      && forallb (fun f => Py.mem f kwargs) required_fields)%bool
  then
    Some (map (fun f =>
                 (f,
                  match Py.get f kwargs with
                  | Some j => j
                  | None => field_default f
                  end))
            field_names)
  else None.

(** The loop of [load_deployment_config] with that constructor. *)
Fixpoint load_instances (items : dict json) (services : dict (dict json))
  : option (dict (dict json)) :=
  match items with
  | [] => Some services
  | (key, service_data) :: rest =>
      match service_data with
      | JObj kwargs =>
          match construct kwargs with
          | Some instance => load_instances rest (Py.set key instance services)
          | None => None
          end
      | _ => None
      end
  end.

(** [load_deployment_config(config_path)] on any document: the registry
    with each instance given by its attributes. *)
Definition load_deployment_instances (config_path : string)
    (fs : FileSystem) : option (dict (dict json)) :=
  match fs config_path with
  | None => None
  | Some data =>
      match data with
      | JObj members =>
          match Py.get "services" members with
          | None => Some []
          | Some (JObj items) => load_instances items []
          | Some _ => None
          end
      | _ => None
      end
  end.

End DeployConfig.

(* ================================================================== *)
(** ** scripts/health_check.py                                         *)
(* ================================================================== *)

Module HealthCheck.
Import Py.

(** An entry of [SERVICES]. *)
Record ServiceEntry : Type := mkServiceEntry {
  url : option string;
  container : string;
  port : Z;
  critical : bool;
  description : string
}.

(** [SERVICES] *)
Definition SERVICES : dict ServiceEntry :=
  [ ("homeassistant",
     mkServiceEntry (Some "http://localhost:8123/api/") "LCARS-homeassistant"
       8123 true "Home Assistant - State Machine & Device Control");
    ("n8n",
     mkServiceEntry (Some "http://localhost:5678/healthz") "LCARS-n8n"
       5678 true "n8n - Workflow Orchestration Engine");
    ("open-webui",
     mkServiceEntry (Some "http://localhost:3000/health") "LCARS-open-webui"
       3000 true "Open WebUI - LLM Interface & RAG System");
    ("ollama",
     mkServiceEntry (Some "http://localhost:11434/api/tags") "LCARS-ollama"
       11434 true "Ollama - Local LLM Inference Server");
    ("whisper",
     mkServiceEntry (Some "http://localhost:10300/") "LCARS-whisper"
       10300 false "Whisper - Speech-to-Text (Wyoming)");
    ("piper",
     mkServiceEntry (Some "http://localhost:10200/") "LCARS-piper"
       10200 false "Piper - Text-to-Speech (Wyoming)");
    ("openwakeword",
     mkServiceEntry None "LCARS-openwakeword"
       10400 false "openWakeWord - Wake Word Detection");
    ("postgres",
     mkServiceEntry None "LCARS-postgres"
       5432 true "PostgreSQL - Workflow Database");
    ("redis",
     mkServiceEntry None "LCARS-redis"
       6379 false "Redis - Task Queue & Caching") ].

(** [@dataclass class ServiceStatus]; times are in milliseconds. *)
Record ServiceStatus : Type := mkServiceStatus {
  status_name : string;
  status_description : string;
  container_running : bool;
  port_open : bool;
  http_ok : option bool;
  response_time_ms : option Q;
  error_message : option string;
  status_critical : bool
}.

(** [ServiceStatus.healthy] *)
Definition healthy (self : ServiceStatus) : bool :=
  (container_running self && port_open self)%bool.

(** What [requests.get] does: a response, or the exception that the
    first matching handler of the code catches. *)
Inductive RequestsOutcome : Type :=
| ReqResponse (status_code : Z)
| ReqConnectionError
| ReqTimeout
| ReqException (text : string).

(** The world outside the process. *)
Record Env : Type := mkEnv {
  (** the module constant [REQUESTS_AVAILABLE] *)
  REQUESTS_AVAILABLE : bool;
  (** [sock.connect_ex((host, port)) == 0], false on [socket.error] *)
  connect_ok : string -> Z -> bool;
  (** [docker inspect] printed [true] for the container *)
  inspect_running : string -> bool;
  (** the outcome of [requests.get(url)] *)
  requests_get : string -> RequestsOutcome;
  (** the outcome of [urllib.request.urlopen] *)
  urlopen : string -> DeployConfig.UrlopenOutcome;
  (** the measured duration of the request, in milliseconds *)
  elapsed_ms : string -> Q;
  (** [round(x, 1)] on floats *)
  round1 : Q -> Q;
  (** [datetime.now().isoformat()], [get_system_resources()] and
      [get_ollama_models()] at the end of the run *)
  now_isoformat : string;
  system_resources_now : json;
  llm_models_now : json
}.

(** [check_port(host, port)] *)
Definition check_port (env : Env) (host : string) (port : Z) : bool :=
  connect_ok env host port.

(** [check_container_running(container_name)] *)
Definition check_container_running (env : Env) (container_name : string)
  : bool :=
  inspect_running env container_name.

(** [check_http_endpoint(url, timeout)] *)
Definition check_http_endpoint (env : Env) (url : string) (timeout : Q)
  : bool * Q * option string :=
  if REQUESTS_AVAILABLE env then
    match requests_get env url with
    | ReqResponse status_code =>
        if status_code <? 500 then (true, elapsed_ms env url, None)
        else (false, elapsed_ms env url,
              Some ("HTTP " ++ str_of_int status_code))
    | ReqConnectionError => (false, 0%Q, Some "Connection refused")
    | ReqTimeout => (false, (timeout * 1000)%Q, Some "Timeout")
    | ReqException text => (false, 0%Q, Some text)
    end
  else
    match urlopen env url with
    | DeployConfig.UrlResponse status =>
        if status <? 500 then (true, elapsed_ms env url, None)
        else (false, elapsed_ms env url, Some ("HTTP " ++ str_of_int status))
    | DeployConfig.UrlHTTPError _ reason => (false, 0%Q, Some reason)
    | DeployConfig.UrlURLError reason => (false, 0%Q, Some reason)
    | DeployConfig.UrlException text => (false, 0%Q, Some text)
    end.

(** [check_service(name, config)] *)
Definition check_service (env : Env) (name : string) (config : ServiceEntry)
  : ServiceStatus :=
  let container_running := check_container_running env (container config) in
  let port_open := check_port env "localhost" (port config) in
  let '(http_ok, response_time, error_msg) :=
    match truthy_str (url config) with
    | Some u =>
        let '(ok, t, e) := check_http_endpoint env u 5%Q in
        (Some ok, Some t, e)
    | None => (None, None, None)
    end in
  mkServiceStatus name (description config) container_running port_open
    http_ok
    match response_time with
    | Some t => if Qeq_bool t 0 then None else Some (round1 env t)
    | None => None
    end
    error_msg (critical config).

(** [@dataclass class SystemStatus] *)
Record SystemStatus : Type := mkSystemStatus {
  timestamp : string;
  all_healthy : bool;
  critical_healthy : bool;
  services : dict ServiceStatus;
  system_resources : json;
  llm_models : json
}.

(** One turn of the loop of [run_health_check] over
    [(services_status, all_healthy, critical_healthy)]. *)
Definition health_step (env : Env)
    (acc : dict ServiceStatus * bool * bool) (item : string * ServiceEntry)
  : dict ServiceStatus * bool * bool :=
  let '(services_status, all_healthy, critical_healthy) := acc in
  let '(name, config) := item in
  let status := check_service env name config in
  let services_status := Py.set name status services_status in
  if negb (healthy status) then
    (services_status, false,
     if status_critical status then false else critical_healthy)
  else (services_status, all_healthy, critical_healthy).

(** [run_health_check()], with the module global [SERVICES] as an
    argument; what it prints is left out. *)
Definition run_health_check (env : Env) (catalogue : dict ServiceEntry)
  : SystemStatus :=
  let '(services_status, all_healthy, critical_healthy) :=
    fold_left (health_step env) catalogue ([], true, true) in
  mkSystemStatus (now_isoformat env) all_healthy critical_healthy
    services_status (system_resources_now env) (llm_models_now env).

(** What the three blocks of [get_system_resources] put under
    [memory], [disk] and [gpu]. *)
Inductive MemoryInfo : Type :=
| MemoryValues (total_gb available_gb used_percent : Q)
| MemoryError.

Inductive DiskInfo : Type :=
| DiskValues (total_gb available_gb used_percent : Z)
| DiskError
| DiskAbsent.

Inductive GpuInfo : Type :=
| GpuValues (gpu_name : string)
    (memory_used_mb memory_total_mb utilization_percent : Z)
| GpuNone
| GpuAbsent.

Record Resources : Type := mkResources {
  memory : MemoryInfo;
  disk : DiskInfo;
  gpu : GpuInfo
}.

(** What [df -BG /] comes to inside its [try]: an exception (all are
    caught there), or an output of so many lines whose second line gives
    the three numbers, or does not ([None]: [int] raises). *)
Inductive DfOutcome : Type :=
| DfRaises
| DfOutput (line_count : nat) (fields : option (Z * Z * Z)).

(** What [nvidia-smi] comes to: one of the two exceptions that are
    caught, another exception, or an exit code and an output whose
    fields are a name and three numbers, or are not ([None]: [int] or
    the indexing raises, as for an output of several lines). *)
Inductive NvidiaOutcome : Type :=
| NvidiaTimeoutOrMissing
| NvidiaOtherException
| NvidiaExit (returncode : Z) (fields : option (string * Z * Z * Z)).

(** The host as [get_system_resources] sees it.  The memory block
    catches every exception, so its result is given as it is.
    [docker_raises] says for which containers running [docker inspect]
    ends in an exception other than the three that
    [check_container_running] catches (a PermissionError, say). *)
Record Probes : Type := mkProbes {
  meminfo : MemoryInfo;
  df : DfOutcome;
  nvidia_smi : NvidiaOutcome;
  docker_raises : string -> bool
}.

(** [get_system_resources()]; [None] when an exception leaves it. *)
Definition get_system_resources (host : Probes) : option Resources :=
  let memory := meminfo host in
  let disk :=
    match df host with
    | DfRaises => DiskError
    | DfOutput line_count fields =>
        if (2 <=? line_count)%nat then
          match fields with
          | Some (total, available, used) => DiskValues total available used
          | None => DiskError
          end
        else DiskAbsent
    end in
  match nvidia_smi host with
  | NvidiaTimeoutOrMissing => Some (mkResources memory disk GpuNone)
  | NvidiaOtherException => None
  | NvidiaExit returncode fields =>
      if returncode =? 0 then
        match fields with
        | Some (gpu_name, used, total, utilization) =>
            Some (mkResources memory disk
                    (GpuValues gpu_name used total utilization))
        | None => None
        end
      else Some (mkResources memory disk GpuAbsent)
  end.

(** Whether [print_status_report(status)] returns, for a status whose
    resources are these; what it prints is left out.  Without a [disk]
    entry the lookup of [used_percent] raises KeyError, and a GPU with no
    memory makes the percentage divide by zero. *)
Definition print_status_report (resources : Resources) : bool :=
  match disk resources with
  | DiskAbsent => false
  | _ =>
      match gpu resources with
      | GpuValues _ _ memory_total_mb _ => negb (memory_total_mb =? 0)
      | _ => true
      end
  end.

(** The command line as [parse_args] returned it; [json_flag] is
    [args.json]. *)
Record Args : Type := mkArgs {
  verbose : bool;
  json_flag : bool
}.

(** [main()]: the exit status of the process.  An exception that nothing
    catches ends the process with status 1: one that leaves a service
    check, [get_system_resources], or the human-readable report (the
    JSON report prints the status as it is).  Otherwise the status is
    that of the three calls of [sys.exit].  What [get_system_resources]
    returned is [resources] here and, as the JSON value stored in the
    report, [system_resources_now env]. *)
Definition main (env : Env) (host : Probes) (args : Args) : Z :=
  if existsb (fun item => docker_raises host (container (snd item))) SERVICES
  then 1
  else
    match get_system_resources host with
    | None => 1
    | Some resources =>
        let status := run_health_check env SERVICES in
        if (negb (json_flag args) && negb (print_status_report resources))%bool
        then 1
        else if negb (critical_healthy status) then 2
        else if negb (all_healthy status) then 1
        else 0
    end.

End HealthCheck.

(* ================================================================== *)
(** ** lcars_guide.py                                                  *)
(* ================================================================== *)

Module LcarsGuide.
Import Py.
Import DeployConfig.

(** Characters are code points below 256. *)
Definition code_in (c : ascii) (codes : list nat) : bool :=
  existsb (Nat.eqb (nat_of_ascii c)) codes.

(** The line boundaries of [str.splitlines]. *)
Definition is_linebreak (c : ascii) : bool :=
  code_in c [10; 11; 12; 13; 28; 29; 30; 133]%nat.

(** [str.isspace] on one character. *)
Definition isspace (c : ascii) : bool :=
  code_in c [9; 10; 11; 12; 13; 28; 29; 30; 31; 32; 133; 160]%nat.

(** [s.strip() == ""] *)
Fixpoint blank (s : string) : bool :=
  match s with
  | EmptyString => true
  | String c rest => (isspace c && blank rest)%bool
  end.

(** [str.splitlines()], with the line being read in [cur]; a carriage
    return followed by a line feed is one boundary. *)
Fixpoint splitlines_from (cur : string) (s : string) : list string :=
  match s with
  | EmptyString => if String.eqb cur "" then [] else [cur]
  | String c rest =>
      if is_linebreak c then
        cur ::
        match rest with
        | String c' rest' =>
            if (Ascii.eqb c (ascii_of_nat 13) && Ascii.eqb c' LF)%bool
            then splitlines_from "" rest'
            else splitlines_from "" rest
        | EmptyString => splitlines_from "" rest
        end
      else splitlines_from (cur ++ String c EmptyString) rest
  end.

Definition splitlines (s : string) : list string := splitlines_from "" s.

(** The line [KEY=VALUE]. *)
Definition env_line (key value : string) : string := key ++ "=" ++ value.

(** One turn of the loop of [upsert_env_var] over [(replaced, new_lines)]. *)
Definition upsert_step (key value : string) (acc : bool * list string)
    (line : string) : bool * list string :=
  let '(replaced, new_lines) := acc in
  let key_prefix := key ++ "=" in
  if startswith line key_prefix then
    (true, (new_lines ++ [env_line key value])%list)
  else (replaced, (new_lines ++ [line])%list).

(** [new_lines] as it is when [upsert_env_var] writes the file. *)
Definition upsert_lines (lines : list string) (key value : string)
  : list string :=
  let '(replaced, new_lines) :=
    fold_left (upsert_step key value) lines (false, []) in
  if negb replaced then
    let new_lines :=
      match new_lines with
      | [] => new_lines
      | _ =>
          if negb (blank (last new_lines "")) then (new_lines ++ [""])%list
          else new_lines
      end in
    (new_lines ++ [env_line key value])%list
  else new_lines.

(** [upsert_env_var(env_path, key, value)]: the text written to the file
    from what the file held ([None]: it did not exist). *)
Definition upsert_env_var (content : option string) (key value : string)
  : string :=
  let lines :=
    match content with
    | Some text => splitlines text
    | None => []
    end in
  String.concat nl (upsert_lines lines key value) ++ nl.

(** The merge that follows [detect_existing_services()] in the
    Auto-Detect Services handler: the value of
    [st.session_state.deployment_config] afterwards.  The registry
    objects are changed in place; no object sits under two keys. *)
Definition merge_detected (deployment_config : option (dict ServiceConfig))
    (detected_services : dict ServiceConfig) : dict ServiceConfig :=
  match deployment_config with
  | Some ((_ :: _) as config) =>
      fold_left
        (fun config item =>
           let '(key, detected_svc) := item in
           if Py.mem key config then
             Py.update key
               (fun svc =>
                  set_detected_port (detected_port detected_svc)
                    (set_detected_host (detected_host detected_svc) svc))
               config
           else config)
        detected_services config
  | _ => detected_services
  end.

(** [_format_base_url(host, port)] *)
Definition _format_base_url (env : Env) (host : string) (port : Z) : string :=
  if (startswith host "http://" || startswith host "https://")%bool then
    let parsed := urlparse env host in
    let scheme :=
      if String.eqb (url_scheme parsed) "" then "http"
      else url_scheme parsed in
    let hostname :=
      match truthy_str (url_hostname parsed) with
      | Some h => h
      | None => host
      end in
    scheme ++ "://" ++ hostname ++ ":" ++ str_of_int port
  else "http://" ++ host ++ ":" ++ str_of_int port.

(** [_load_service_configs()]: the services it returns, [None] when the
    deploy_config module cannot be imported.  [session] is
    [st.session_state.get("deployment_config")]. *)
Definition _load_service_configs (module_imported : bool)
    (session : option (dict ServiceConfig)) (config_path : string)
    (fs : FileSystem) : option (dict ServiceConfig) :=
  if negb module_imported then None
  else
    match session with
    | Some ((_ :: _) as services) => Some services
    | _ =>
        match load_deployment_config config_path fs with
        | Some ((_ :: _) as loaded) => Some loaded
        | _ => Some DEFAULT_SERVICES
        end
    end.

(** The options of the preset select box; each one is told apart by the
    words the handler looks for in it. *)
Inductive Preset : Type :=
| FullCustom
| MinimalInstall
| ReuseDatabaseOnly
| ReuseLLMServer
| ReuseAllInfrastructure.

(** The Apply Preset handler: [services_config] afterwards. *)
Definition apply_preset (preset : Preset)
    (services_config : dict ServiceConfig) : dict ServiceConfig :=
  match preset with
  | FullCustom => services_config
  | MinimalInstall =>
      map (fun item => (fst item, set_use_existing false (snd item)))
        services_config
  | ReuseDatabaseOnly =>
      map (fun item =>
             (fst item,
              set_use_existing (String.eqb (fst item) "postgres") (snd item)))
        services_config
  | ReuseLLMServer =>
      map (fun item =>
             (fst item,
              set_use_existing (String.eqb (fst item) "ollama") (snd item)))
        services_config
  | ReuseAllInfrastructure =>
      map (fun item =>
             (fst item,
              if can_use_existing (snd item)
              then set_use_existing true (snd item)
              else snd item))
        services_config
  end.

(** What the label of a service checkbox says after the name. *)
Inductive ConfigSummary : Type :=
| ShowsEndpoint (host : string) (port : Z)
| NeedsConfiguration
| DeployNew.

(** [config_summary] of the checkbox loops; [host] and [port] are the
    [or] chains over the custom, detected and default values. *)
Definition config_summary (service : ServiceConfig) : ConfigSummary :=
  if use_existing service then
    let configured :=
      match truthy_str (custom_host service) with
      | Some _ => true
      | None =>
          match truthy_str (detected_host service) with
          | Some _ => true
          | None => false
          end
      end in
    if configured then
      let host :=
        match truthy_str (custom_host service) with
        | Some h => h
        | None =>
            match truthy_str (detected_host service) with
            | Some h => h
            | None => default_host service
            end
        end in
      let port :=
        match truthy_int (custom_port service) with
        | Some p => p
        | None =>
            match truthy_int (detected_port service) with
            | Some p => p
            | None => default_port service
            end
        end in
      ShowsEndpoint host port
    else NeedsConfiguration
  else DeployNew.

(** The updates of docker/.env made on a successful save: the text of
    the file afterwards. *)
Definition update_env_file (services_config : dict ServiceConfig)
    (content : option string) : string :=
  let content :=
    match Py.get "homeassistant" services_config with
    | Some ha_service =>
        if use_existing ha_service then
          Some (upsert_env_var content "HA_URL"
                  ("http://" ++ effective_host ha_service ++ ":" ++
                   str_of_int (effective_port ha_service)))
        else content
    | None => content
    end in
  let content :=
    match Py.get "ollama" services_config with
    | Some ollama_service =>
        if use_existing ollama_service then
          upsert_env_var content "OLLAMA_BASE_URL"
            ("http://" ++ effective_host ollama_service ++ ":" ++
             str_of_int (effective_port ollama_service))
        else upsert_env_var content "OLLAMA_BASE_URL" "http://ollama:11434"
    | None => upsert_env_var content "OLLAMA_BASE_URL" "http://ollama:11434"
    end in
  match Py.get "postgres" services_config with
  | Some postgres_service =>
      if use_existing postgres_service then
        upsert_env_var
          (Some (upsert_env_var (Some content) "DB_POSTGRESDB_HOST"
                   (effective_host postgres_service)))
          "DB_POSTGRESDB_PORT" (str_of_int (effective_port postgres_service))
      else
        upsert_env_var
          (Some (upsert_env_var (Some content) "DB_POSTGRESDB_HOST" "postgres"))
          "DB_POSTGRESDB_PORT" "5432"
  | None =>
      upsert_env_var
        (Some (upsert_env_var (Some content) "DB_POSTGRESDB_HOST" "postgres"))
        "DB_POSTGRESDB_PORT" "5432"
  end.

End LcarsGuide.

(* ================================================================== *)
(** ** Concrete states and environments used in the examples           *)
(* ================================================================== *)

Module Fixtures.
Import Py.
Import DeployConfig.

(** A state as a configuration file may hold it: a fresh deployment
    whose custom host is the address stored as detected. *)
Definition pinned_postgres : ServiceConfig :=
  mkServiceConfig "PostgreSQL" "Database for n8n workflows"
    "localhost" 5432 "tcp://{}:{}" true true
    (Some "10.0.0.9") (Some 5432) false (Some "10.0.0.9") None.

(** [urlparse] on the formatted templates of the catalogue. *)
Definition urlparse_catalogue (u : string) : ParseResult :=
  if String.eqb u "http://HOST:PORT/api/" then
    mkParseResult "http" (Some "host") "/api/" ""
  else if String.eqb u "http://HOST:PORT/api/tags" then
    mkParseResult "http" (Some "host") "/api/tags" ""
  else if String.eqb u "http://HOST:PORT/healthz" then
    mkParseResult "http" (Some "host") "/healthz" ""
  else if String.eqb u "http://HOST:PORT/v1/models" then
    mkParseResult "http" (Some "host") "/v1/models" ""
  else mkParseResult "" None u "".

(** Every port accepts connections; every GET is answered with the
    given error status. *)
Definition answering_with (code : Z) (reason : string) : Env :=
  mkEnv (fun _ _ => true) (fun _ => UrlHTTPError code reason)
    urlparse_catalogue.

(** Postgres and redis are reused, postgres on another port. *)
Definition reuse_postgres (port : Z) (s : ServiceConfig) : ServiceConfig :=
  set_custom_port (Some port) (set_use_existing true s).

Definition external_stores : dict ServiceConfig :=
  Py.update "redis" (set_use_existing true)
    (Py.update "postgres" (reuse_postgres 6543) DEFAULT_SERVICES).

(** A host without the requests library, on which every GET is answered
    with the given error status after 12 ms. *)
Definition without_requests (code : Z) (reason : string) : HealthCheck.Env :=
  HealthCheck.mkEnv false (fun _ _ => true) (fun _ => true)
    (fun _ => HealthCheck.ReqConnectionError)
    (fun _ => UrlHTTPError code reason)
    (fun _ => 12%Q) (fun t => t) "2026-01-01T00:00:00" JNull (JArr []).

(** The same host with the container of the database stopped. *)
Definition postgres_stopped : HealthCheck.Env :=
  HealthCheck.mkEnv false (fun _ _ => true)
    (fun container_name => negb (String.eqb container_name "LCARS-postgres"))
    (fun _ => HealthCheck.ReqConnectionError)
    (fun _ => UrlHTTPError 404 "Not Found")
    (fun _ => 12%Q) (fun t => t) "2026-01-01T00:00:00" JNull (JArr []).

(** A Linux host without a GPU: [df -BG /] prints its header and one
    line, and there is no [nvidia-smi]. *)
Definition linux_host : HealthCheck.Probes :=
  HealthCheck.mkProbes (HealthCheck.MemoryValues 32 16 50)
    (HealthCheck.DfOutput 2 (Some (500, 250, 50)))
    HealthCheck.NvidiaTimeoutOrMissing (fun _ => false).

(** A host whose [df] does not know [-BG] (as on macOS): it prints its
    usage on the standard error and nothing on the standard output, which
    [strip] and [split] turn into one empty line.  There is no
    [/proc/meminfo] and no [nvidia-smi]. *)
Definition df_without_block_size : HealthCheck.Probes :=
  HealthCheck.mkProbes HealthCheck.MemoryError
    (HealthCheck.DfOutput 1 None)
    HealthCheck.NvidiaTimeoutOrMissing (fun _ => false).

(** A Linux host with two GPUs: [nvidia-smi] prints one line for each,
    so the fourth field of the output split at the commas runs over the
    line break and is no number. *)
Definition two_gpus : HealthCheck.Probes :=
  HealthCheck.mkProbes (HealthCheck.MemoryValues 32 16 50)
    (HealthCheck.DfOutput 2 (Some (500, 250, 50)))
    (HealthCheck.NvidiaExit 0 None) (fun _ => false).

(** The members of a service written by hand into a configuration
    file: the port is given as text and the optional fields are left
    out. *)
Definition hand_written_redis : dict json :=
  [ ("name", JStr "Redis");
    ("description", JStr "Task queue and caching");
    ("default_host", JStr "localhost");
    ("default_port", JStr "6379");
    ("health_check_url", JStr "tcp://{}:{}");
    ("required", JBool false);
    ("can_use_existing", JBool true) ].

Definition hand_written_document : dict json :=
  [ ("version", JStr "1.0");
    ("services", JObj [("redis", JObj hand_written_redis)]) ].

(** [health_check.py] and [health_check.py --json]. *)
Definition human_report : HealthCheck.Args := HealthCheck.mkArgs false false.
Definition json_report : HealthCheck.Args := HealthCheck.mkArgs false true.

End Fixtures.

(* ================================================================== *)
(** ** Vocabulary of the statements                                    *)
(* ================================================================== *)

Section DeployTerms.
Import Py.
Import DeployConfig.

(** A host field that was never filled in. *)
Definition host_unset (o : option string) : Prop := o = None \/ o = Some "".

(** A port field that was never filled in. *)
Definition port_unset (o : option Z) : Prop := o = None \/ o = Some 0.

(** Two states that agree on every field but [detected_host] and
    [detected_port]. *)
Definition same_user_fields (s s' : ServiceConfig) : Prop :=
  name s' = name s
  /\ description s' = description s
  /\ default_host s' = default_host s
  /\ default_port s' = default_port s
  /\ health_check_url s' = health_check_url s
  /\ required s' = required s
  /\ can_use_existing s' = can_use_existing s
  /\ use_existing s' = use_existing s
  /\ custom_host s' = custom_host s
  /\ custom_port s' = custom_port s.

(** The test that sends a service to the disabled group. *)
Definition reused (s : ServiceConfig) : bool :=
  (use_existing s && can_use_existing s)%bool.

(** The registry holds [key] with both flags set. *)
Definition disabled_in (services : dict ServiceConfig) (key : string) : Prop :=
  exists s, In (key, s) services
            /\ use_existing s = true /\ can_use_existing s = true.

(** What one item adds to [port_overrides]. *)
Definition override_of (item : string * ServiceConfig) : list PortOverride :=
  if reused (snd item) then []
  else if negb (effective_port (snd item) =? default_port (snd item)) then
    [mkPortOverride (fst item) (default_port (snd item))
       (effective_port (snd item))]
  else [].

(** The text before and after the block that rewrites the dependencies
    of n8n. *)
Definition override_head (services : dict ServiceConfig) : string :=
  yaml_header
  ++ String.concat "" (map profile_entry (disabled_services services)).

Definition override_tail (services : dict ServiceConfig) : string :=
  String.concat "" (map port_entry (port_overrides services))
  ++ match disabled_services services with
     | [] => ""
     | _ =>
         nl ++ "# Disabled services (using existing infrastructure):" ++ nl
         ++ String.concat ""
              (map (comment_entry services) (disabled_services services))
     end.

End DeployTerms.

Section ReporterTerms.
Import Py.
Import HealthCheck.

(** The statuses of a run, in catalogue order. *)
Definition statuses (env : Env) (catalogue : dict ServiceEntry)
  : list ServiceStatus :=
  map (fun item => check_service env (fst item) (snd item)) catalogue.

(** The two checks that make a service healthy: its container runs and
    its port accepts connections on the local host. *)
Definition container_and_port_up (env : Env) (config : ServiceEntry) : bool :=
  (check_container_running env (container config)
   && check_port env "localhost" (port config))%bool.

(** No exception leaves the run before the exit code is chosen: every
    service check and the gathering of the resources return, and the
    report asked for is printed. *)
Definition run_completes (host : Probes) (args : Args) : bool :=
  (forallb (fun item => negb (docker_raises host (container (snd item))))
     SERVICES
   && match get_system_resources host with
      | Some resources => json_flag args || print_status_report resources
      | None => false
      end)%bool.

End ReporterTerms.

Section EnvFileTerms.
Import Py.
Import LcarsGuide.

(** What the loop writes for a line. *)
Definition replace_line (key value line : string) : string :=
  if startswith line (key ++ "=") then env_line key value else line.

(** Some line starts with [KEY=]. *)
Definition has_key_line (key : string) (lines : list string) : bool :=
  existsb (fun line => startswith line (key ++ "=")) lines.

(** The empty line put before an appended entry. *)
Definition separator (lines : list string) : list string :=
  match lines with
  | [] => []
  | _ => if blank (last lines "") then [] else [""]
  end.

(** The key of a line: the text before its first [=]. *)
Fixpoint line_key (line : string) : string :=
  match line with
  | EmptyString => EmptyString
  | String c rest =>
      if Ascii.eqb c "=" then EmptyString else String c (line_key rest)
  end.

(** The string has an [=] in it. *)
Fixpoint contains_equals (s : string) : bool :=
  match s with
  | EmptyString => false
  | String c rest => (Ascii.eqb c "=" || contains_equals rest)%bool
  end.

End EnvFileTerms.

Section ProbeTerms.
Import Py.
Import DeployConfig.

(** The host field holds no scheme. *)
Definition plain_host (host : string) : bool :=
  negb (startswith host "http://" || startswith host "https://").

(** The message of the reachability tier. *)
Definition port_message (hostname : string) (port : Z) : string :=
  "Port " ++ str_of_int port ++ " not accessible on " ++ hostname.

(** Two states that agree on the descriptor and on the user's host and
    port. *)
Definition same_descriptor (t s : ServiceConfig) : Prop :=
  name s = name t
  /\ description s = description t
  /\ default_host s = default_host t
  /\ default_port s = default_port t
  /\ health_check_url s = health_check_url t
  /\ required s = required t
  /\ can_use_existing s = can_use_existing t
  /\ custom_host s = custom_host t
  /\ custom_port s = custom_port t.

End ProbeTerms.

Section ArtifactTerms.
Import Py.
Import DeployConfig.

(** No service is reused and every effective port is the default one. *)
Definition standard_deployment (services : dict ServiceConfig) : bool :=
  forallb
    (fun item =>
       negb (reused (snd item))
       && (effective_port (snd item) =? default_port (snd item)))%bool
    services.

(** A registry with every state given by its attributes. *)
Definition attributes (services : dict ServiceConfig) : dict (dict json) :=
  map (fun item => (fst item, asdict (snd item))) services.

(** A member of the [services] object and the registry entry built
    from it. *)
Definition built_from (item : string * json) (entry : string * dict json)
  : Prop :=
  fst entry = fst item
  /\ exists kwargs,
       snd item = JObj kwargs /\ construct kwargs = Some (snd entry).

End ArtifactTerms.

Section EnvFileTerms2.
Import Py.
Import LcarsGuide.

(** No character of the string is a line boundary. *)
Fixpoint no_linebreak (s : string) : bool :=
  match s with
  | EmptyString => true
  | String c rest => (negb (is_linebreak c) && no_linebreak rest)%bool
  end.

(** The lines that [upsert_env_var] reads from the file. *)
Definition file_lines (content : option string) : list string :=
  match content with
  | Some text => splitlines text
  | None => []
  end.

End EnvFileTerms2.

Section GuideTerms.
Import Py.
Import DeployConfig.
Import LcarsGuide.

(** The URL written for a reused service. *)
Definition endpoint_url (service : ServiceConfig) : string :=
  "http://" ++ effective_host service ++ ":" ++
  str_of_int (effective_port service).

(** The keys and values that a successful save writes to docker/.env,
    in the order of the writes. *)
Definition env_updates (services_config : dict ServiceConfig)
  : list (string * string) :=
  (match Py.get "homeassistant" services_config with
   | Some ha_service =>
       if use_existing ha_service then
         [("HA_URL", endpoint_url ha_service)]
       else []
   | None => []
   end ++
   [("OLLAMA_BASE_URL",
     match Py.get "ollama" services_config with
     | Some ollama_service =>
         if use_existing ollama_service then endpoint_url ollama_service
         else "http://ollama:11434"
     | None => "http://ollama:11434"
     end);
    ("DB_POSTGRESDB_HOST",
     match Py.get "postgres" services_config with
     | Some postgres_service =>
         if use_existing postgres_service then effective_host postgres_service
         else "postgres"
     | None => "postgres"
     end);
    ("DB_POSTGRESDB_PORT",
     match Py.get "postgres" services_config with
     | Some postgres_service =>
         if use_existing postgres_service
         then str_of_int (effective_port postgres_service)
         else "5432"
     | None => "5432"
     end)])%list.

(** Line-level upserts, one after the other. *)
Definition apply_updates (lines : list string)
    (updates : list (string * string)) : list string :=
  fold_left (fun lines kv => upsert_lines lines (fst kv) (snd kv))
    updates lines.

(** No entry of one update is taken for an entry of another. *)
Fixpoint independent_updates (updates : list (string * string)) : Prop :=
  match updates with
  | [] => True
  | kv :: rest =>
      Forall
        (fun kv' =>
           startswith (env_line (fst kv) (snd kv)) (fst kv' ++ "=") = false
           /\ startswith (env_line (fst kv') (snd kv')) (fst kv ++ "=")
              = false)
        rest
      /\ independent_updates rest
  end.

(** All fields but [use_existing] agree. *)
Definition same_but_use_existing (s s' : ServiceConfig) : Prop :=
  s' = set_use_existing (use_existing s') s.

(** A service that cannot reuse infrastructure is never marked as
    reusing it. *)
Definition reuse_allowed (services : dict ServiceConfig) : Prop :=
  forall key s,
    In (key, s) services -> use_existing s = true -> can_use_existing s = true.

End GuideTerms.

Section ContainerTerms.
Import Py.
Import DeployConfig.

(** The container name holds the key of a service. *)
Definition matches_service (service_keys : list string) (name : string)
  : bool :=
  existsb (fun svc => contains svc (lower name)) service_keys.

(** The record kept for a JSON object of [docker ps]. *)
Definition info_of (container : dict json) : ContainerInfo :=
  mkContainerInfo
    (json_get "ID" JNull container)
    (json_get "Status" JNull container)
    (json_get "State" JNull container)
    (json_get "Image" JNull container)
    (json_get "Ports" (JStr "") container).

(** Some line of the output is an object with this name and this
    record. *)
Definition listed (lines : list DockerLine) (name : string)
    (info : ContainerInfo) : Prop :=
  exists container,
    In (JsonValue (JObj container)) lines
    /\ json_get "Names" (JStr "") container = JStr name
    /\ info = info_of container.

End ContainerTerms.

Section FreshTerms.
Import Py.
Import DeployConfig.

(** Every service is to be deployed fresh and carries no detection. *)
Definition fresh_registry (services : dict ServiceConfig) : bool :=
  forallb
    (fun item =>
       negb (use_existing (snd item))
       && match detected_host (snd item) with None => true | Some _ => false end
       && match detected_port (snd item) with None => true | Some _ => false end)%bool
    services.

End FreshTerms.

(* ================================================================== *)
(** ** Dictionaries                                                    *)
(* ================================================================== *)

Section DictFacts.
Import Py.
Context {V : Type}.

Lemma keys_update (k : string) (f : V -> V) (d : dict V) :
  keys (update k f d) = keys d.
Proof.
  induction d as [|[k' v'] d IH]; [reflexivity|]. cbn [update].
  destruct (String.eqb k k'); unfold keys; cbn [map fst]; [reflexivity|].
  f_equal. exact IH.
Qed.

Lemma get_update_same (k : string) (f : V -> V) (d : dict V) :
  get k (update k f d) = option_map f (get k d).
Proof.
  induction d as [|[k' v'] d IH]; [reflexivity|]. cbn [update get].
  destruct (String.eqb k k') eqn:E; cbn [get]; rewrite E; [reflexivity|].
  exact IH.
Qed.

Lemma get_update_other (k k0 : string) (f : V -> V) (d : dict V) :
  k0 <> k -> get k0 (update k f d) = get k0 d.
Proof.
  intros Hne. induction d as [|[k' v'] d IH]; [reflexivity|]. cbn [update get].
  destruct (String.eqb_spec k k') as [<-|Hk]; cbn [get].
  - destruct (String.eqb_spec k0 k); [contradiction|reflexivity].
  - destruct (String.eqb k0 k'); [reflexivity|exact IH].
Qed.

Lemma set_fresh (k : string) (v : V) (d : dict V) :
  ~ In k (keys d) -> set k v d = (d ++ [(k, v)])%list.
Proof.
  induction d as [|[k' v'] d IH]; [reflexivity|]. cbn [keys map fst set In app].
  intros Hn. destruct (String.eqb_spec k k') as [->|_].
  - exfalso. apply Hn. now left.
  - f_equal. apply IH. intros Hin. apply Hn. now right.
Qed.

(** A loop that stores [g key value] under each key of a dict builds the
    items of that dict, mapped, behind what was there. *)
Lemma fold_set_map {U : Type} (g : string -> U -> V) (d : dict U) :
  forall acc : dict V,
    NoDup (keys acc ++ keys d) ->
    fold_left (fun out item => set (fst item) (g (fst item) (snd item)) out)
      d acc
    = (acc ++ map (fun item => (fst item, g (fst item) (snd item))) d)%list.
Proof.
  induction d as [|[k v] d IH]; intros acc Hnd; cbn [fold_left map fst snd].
  - now rewrite app_nil_r.
  - cbn [keys map fst] in Hnd.
    assert (Hk : ~ In k (keys acc)).
    { apply NoDup_remove_2 in Hnd. intros Hin. apply Hnd.
      apply in_or_app. now left. }
    rewrite set_fresh by exact Hk.
    rewrite IH.
    + now rewrite <- app_assoc.
    + unfold keys in *. rewrite map_app. cbn [map fst].
      rewrite <- app_assoc. exact Hnd.
Qed.

(** Under distinct keys a key has one value. *)
Lemma wf_functional (d : dict V) (k : string) (a b : V) :
  wf d -> In (k, a) d -> In (k, b) d -> a = b.
Proof.
  unfold wf, keys. induction d as [|[k' v'] d IH]; [contradiction|].
  cbn [map fst]. intros Hnd Ha Hb. apply NoDup_cons_iff in Hnd as [Hk Hnd].
  destruct Ha as [Ha|Ha], Hb as [Hb|Hb].
  - congruence.
  - injection Ha as -> ->. exfalso. apply Hk.
    change k with (fst (k, b)). now apply in_map.
  - injection Hb as -> ->. exfalso. apply Hk.
    change k with (fst (k, a)). now apply in_map.
  - now apply IH.
Qed.

End DictFacts.

(* ================================================================== *)
(** ** Resolution engine                                               *)
(* ================================================================== *)

Section Resolution.
Import Py.
Import DeployConfig.

Lemma truthy_str_set (o : option string) (h : string) :
  o = Some h -> h <> "" -> truthy_str o = Some h.
Proof.
  intros -> Hne. unfold truthy_str.
  destruct (String.eqb_spec h ""); congruence.
Qed.

Lemma truthy_str_unset (o : option string) :
  host_unset o -> truthy_str o = None.
Proof. intros [-> | ->]; reflexivity. Qed.

Lemma truthy_str_inv (o : option string) (h : string) :
  truthy_str o = Some h -> o = Some h /\ h <> "".
Proof.
  destruct o as [s|]; simpl; [|discriminate].
  destruct (String.eqb_spec s ""); [discriminate|].
  intros [= <-]. auto.
Qed.

Lemma truthy_int_set (o : option Z) (p : Z) :
  o = Some p -> p <> 0 -> truthy_int o = Some p.
Proof.
  intros -> Hne. unfold truthy_int.
  destruct (Z.eqb_spec p 0); congruence.
Qed.

Lemma truthy_int_unset (o : option Z) : port_unset o -> truthy_int o = None.
Proof. intros [-> | ->]; reflexivity. Qed.

(** C1 (as amended): the effective host is [custom_host] when that is
    set (non-empty), whatever [use_existing] says; otherwise
    [detected_host] when [use_existing] holds and a host was detected;
    otherwise [default_host].  With [use_existing = false] and no custom
    host the effective host is the default, and in any state with
    [use_existing = false] the effective host can equal a detected host
    other than the default only because [custom_host] names that very
    host. *)
Theorem effective_host_precedence (s : ServiceConfig) :
  (forall h, custom_host s = Some h -> h <> "" -> effective_host s = h)
  /\ (forall h, host_unset (custom_host s) -> use_existing s = true ->
        detected_host s = Some h -> h <> "" -> effective_host s = h)
  /\ (host_unset (custom_host s) ->
        use_existing s = false \/ host_unset (detected_host s) ->
        effective_host s = default_host s)
  /\ (forall h, use_existing s = false -> detected_host s = Some h ->
        h <> default_host s -> effective_host s = h ->
        custom_host s = Some h).
Proof.
  unfold effective_host. repeat split.
  - intros h Hc Hne. now rewrite (truthy_str_set _ _ Hc Hne).
  - intros h Hc Hu Hd Hne.
    rewrite (truthy_str_unset _ Hc), Hu. now rewrite (truthy_str_set _ _ Hd Hne).
  - intros Hc [Hu | Hd]; rewrite (truthy_str_unset _ Hc).
    + now rewrite Hu.
    + rewrite (truthy_str_unset _ Hd). now destruct (use_existing s).
  - intros h Hu Hd Hne.
    destruct (truthy_str (custom_host s)) as [c|] eqn:Hc.
    + intros ->. now apply truthy_str_inv in Hc.
    + rewrite Hu. congruence.
Qed.

(** C1, the claim as written fails: with [use_existing = false] the
    effective host of this state is its detected host, which is not the
    default host. *)
Lemma effective_host_equals_detected_when_fresh :
  use_existing Fixtures.pinned_postgres = false
  /\ detected_host Fixtures.pinned_postgres = Some "10.0.0.9"
  /\ "10.0.0.9" <> default_host Fixtures.pinned_postgres
  /\ effective_host Fixtures.pinned_postgres = "10.0.0.9".
Proof. repeat split; try reflexivity. discriminate. Qed.

(** C2: the effective port is [custom_port] when set, else
    [detected_port] when present, else [default_port]; a port of [0] or
    [None] counts as not set and falls through to the next tier; and
    [use_existing] plays no part. *)
Theorem effective_port_precedence (s : ServiceConfig) :
  (forall p, custom_port s = Some p -> p <> 0 -> effective_port s = p)
  /\ (forall p, port_unset (custom_port s) ->
        detected_port s = Some p -> p <> 0 -> effective_port s = p)
  /\ (port_unset (custom_port s) -> port_unset (detected_port s) ->
        effective_port s = default_port s)
  /\ (forall b, effective_port (set_use_existing b s) = effective_port s).
Proof.
  unfold effective_port. repeat split.
  - intros p Hc Hne. now rewrite (truthy_int_set _ _ Hc Hne).
  - intros p Hc Hd Hne.
    rewrite (truthy_int_unset _ Hc). now rewrite (truthy_int_set _ _ Hd Hne).
  - intros Hc Hd.
    now rewrite (truthy_int_unset _ Hc), (truthy_int_unset _ Hd).
Qed.

End Resolution.

(* ================================================================== *)
(** ** Infrastructure prober                                           *)
(* ================================================================== *)

Section Prober.
Import Py.

(** C3 (as amended).  In deploy_config a probe is healthy when [urlopen]
    returns a response with a status below 500 or raises an HTTP error
    with code 401, 403 or 404; a returned status of 500 or more and every
    other HTTP error code are unhealthy with the message [HTTP <code>];
    a network-layer failure is unhealthy with the error text.  In
    health_check, on the path that uses the requests library, every
    status below 500 is healthy, every status from 500 on is unhealthy
    with [HTTP <code>], and connection errors, timeouts and other
    exceptions are unhealthy with a text. *)
Theorem http_probe_classification :
  (forall env url status,
      DeployConfig.urlopen env url = DeployConfig.UrlResponse status ->
      (status < 500 -> DeployConfig.check_http_endpoint env url = (true, None))
      /\ (500 <= status ->
          DeployConfig.check_http_endpoint env url =
            (false, Some ("HTTP " ++ str_of_int status))))
  /\ (forall env url code reason,
      DeployConfig.urlopen env url = DeployConfig.UrlHTTPError code reason ->
      (code = 401 \/ code = 403 \/ code = 404 ->
         DeployConfig.check_http_endpoint env url = (true, None))
      /\ (code <> 401 -> code <> 403 -> code <> 404 ->
          DeployConfig.check_http_endpoint env url =
            (false, Some ("HTTP " ++ str_of_int code))))
  /\ (forall env url reason,
      DeployConfig.urlopen env url = DeployConfig.UrlURLError reason ->
      DeployConfig.check_http_endpoint env url =
        (false, Some ("Connection failed: " ++ reason)))
  /\ (forall env url text,
      DeployConfig.urlopen env url = DeployConfig.UrlException text ->
      DeployConfig.check_http_endpoint env url = (false, Some text))
  /\ (forall env url timeout,
      HealthCheck.REQUESTS_AVAILABLE env = true ->
      (forall status,
          HealthCheck.requests_get env url = HealthCheck.ReqResponse status ->
          (status < 500 ->
             HealthCheck.check_http_endpoint env url timeout =
               (true, HealthCheck.elapsed_ms env url, None))
          /\ (500 <= status ->
              HealthCheck.check_http_endpoint env url timeout =
                (false, HealthCheck.elapsed_ms env url,
                 Some ("HTTP " ++ str_of_int status))))
      /\ (HealthCheck.requests_get env url = HealthCheck.ReqConnectionError ->
          HealthCheck.check_http_endpoint env url timeout =
            (false, 0%Q, Some "Connection refused"))
      /\ (HealthCheck.requests_get env url = HealthCheck.ReqTimeout ->
          HealthCheck.check_http_endpoint env url timeout =
            (false, (timeout * 1000)%Q, Some "Timeout"))
      /\ (forall text,
          HealthCheck.requests_get env url = HealthCheck.ReqException text ->
          HealthCheck.check_http_endpoint env url timeout =
            (false, 0%Q, Some text))).
Proof.
  repeat apply conj.
  - intros env url status H. unfold DeployConfig.check_http_endpoint.
    rewrite H. split; intros Hs.
    + now apply Z.ltb_lt in Hs as ->.
    + now apply Z.ltb_ge in Hs as ->.
  - intros env url code reason H. unfold DeployConfig.check_http_endpoint.
    rewrite H. split.
    + intros [-> | [-> | ->]]; reflexivity.
    + intros H1 H3 H4. unfold int_in. cbn [existsb].
      apply Z.eqb_neq in H1, H3, H4. now rewrite H1, H3, H4.
  - intros env url reason H. unfold DeployConfig.check_http_endpoint.
    now rewrite H.
  - intros env url text H. unfold DeployConfig.check_http_endpoint.
    now rewrite H.
  - intros env url timeout Hreq. unfold HealthCheck.check_http_endpoint.
    rewrite Hreq. repeat apply conj.
    + intros status H. rewrite H. split; intros Hs.
      * now apply Z.ltb_lt in Hs as ->.
      * now apply Z.ltb_ge in Hs as ->.
    + now intros ->.
    + now intros ->.
    + now intros text ->.
Qed.

(** C3, the claim as written fails: a probe answered with status 400,
    which is below 500, is classified unhealthy by deploy_config. *)
Lemma http_400_is_unhealthy :
  DeployConfig.urlopen (Fixtures.answering_with 400 "Bad Request")
    "http://localhost:3000/v1/models"
  = DeployConfig.UrlHTTPError 400 "Bad Request"
  /\ 400 < 500
  /\ DeployConfig.check_http_endpoint
       (Fixtures.answering_with 400 "Bad Request")
       "http://localhost:3000/v1/models"
     = (false, Some "HTTP 400").
Proof. repeat split. Qed.

(** The message of an unhealthy status carries the code in decimal. *)
Example http_500_message :
  DeployConfig.check_http_endpoint
    (Fixtures.answering_with 500 "Internal Server Error")
    "http://localhost:8123/api/"
  = (false, Some "HTTP 500").
Proof. reflexivity. Qed.

(** The urllib path of health_check, taken when the requests library is
    missing, reports an HTTP error by its reason phrase. *)
Example urllib_fallback_404 :
  HealthCheck.check_http_endpoint
    (Fixtures.without_requests 404 "Not Found")
    "http://localhost:3000/health" 5%Q
  = (false, 0%Q, Some "Not Found").
Proof. reflexivity. Qed.

End Prober.

(* ================================================================== *)
(** ** Discovery service                                               *)
(* ================================================================== *)

Section Discovery.
Import Py.
Import DeployConfig.

(** Services that cannot reuse infrastructure pass through untouched. *)
Lemma detect_service_passthrough (env : Env) (t : ServiceConfig) :
  can_use_existing t = false -> detect_service env t = t.
Proof. intros H. unfold detect_service. now rewrite H. Qed.

(** The reachability probe goes to the default host and port, and an
    open port alone decides that the detected fields are filled in:
    the verdict of the health check is not consulted for them. *)
Lemma detect_service_records_open_port (env : Env) (t : ServiceConfig) :
  can_use_existing t = true ->
  check_port_available env (default_host t) (default_port t) = true ->
  detected_host (detect_service env t) = Some (default_host t)
  /\ detected_port (detect_service env t) = Some (default_port t).
Proof.
  intros Hc Hp. unfold detect_service. rewrite Hc. cbn [negb].
  rewrite Hp.
  destruct (check_service_health env _) as [[|] msg]; split; reflexivity.
Qed.

(** With the port closed nothing is recorded. *)
Lemma detect_service_closed_port (env : Env) (t : ServiceConfig) :
  check_port_available env (default_host t) (default_port t) = false ->
  detect_service env t = t.
Proof.
  intros Hp. unfold detect_service.
  destruct (can_use_existing t); cbn [negb]; [|reflexivity].
  now rewrite Hp.
Qed.

(** C4, the code at the failing input: something other than Open WebUI
    listens on port 3000 and answers the health request with status 500.
    The health check of the scanned service fails, yet the scan stores
    the default host and port of open-webui as detected. *)
Theorem detection_records_unverified_service :
  exists s,
    Py.get "open-webui"
      (detect_existing_services
         (Fixtures.answering_with 500 "Internal Server Error")
         DEFAULT_SERVICES)
    = Some s
    /\ detected_host s = Some "localhost"
    /\ detected_port s = Some 3000
    /\ check_service_health
         (Fixtures.answering_with 500 "Internal Server Error") s
       = (false, Some "HTTP 500").
Proof. eexists. repeat split. Qed.

(** The scan never switches a service to reuse. *)
Lemma detect_service_keeps_fresh (env : Env) (t : ServiceConfig) :
  use_existing t = false -> use_existing (detect_service env t) = false.
Proof.
  intros Hu. unfold detect_service.
  destruct (can_use_existing t); cbn [negb]; [|exact Hu].
  destruct (check_port_available env _ _); [|exact Hu].
  destruct (check_service_health env _) as [[|] msg]; [reflexivity|exact Hu].
Qed.

(** The scan keeps the keys and the order of the catalogue and handles
    each entry on its own. *)
Lemma detect_existing_services_map (env : Env)
    (catalogue : dict ServiceConfig) :
  wf catalogue ->
  detect_existing_services env catalogue
  = map (fun item => (fst item, detect_service env (snd item))) catalogue.
Proof.
  intros Hwf. unfold detect_existing_services.
  exact (fold_set_map (fun _ t => detect_service env t) catalogue [] Hwf).
Qed.

End Discovery.

(* ================================================================== *)
(** ** Merging a scan into the live registry                           *)
(* ================================================================== *)

Section Merge.
Import Py.
Import DeployConfig.
Import LcarsGuide.

Lemma same_user_fields_refl (s : ServiceConfig) : same_user_fields s s.
Proof. unfold same_user_fields. tauto. Qed.

Lemma same_user_fields_trans (a b c : ServiceConfig) :
  same_user_fields a b -> same_user_fields b c -> same_user_fields a c.
Proof.
  unfold same_user_fields. intros Hab Hbc.
  decompose [and] Hab. decompose [and] Hbc. repeat split; congruence.
Qed.

Lemma same_user_fields_assign (dh : option string) (dp : option Z)
    (s : ServiceConfig) :
  same_user_fields s (set_detected_port dp (set_detected_host dh s)).
Proof. unfold same_user_fields. cbn. tauto. Qed.

(** The loop of the merge, from any registry. *)
Lemma merge_loop_get (detected : dict ServiceConfig) :
  forall (config : dict ServiceConfig) (key : string) (svc : ServiceConfig),
    get key config = Some svc ->
    exists svc',
      get key
        (fold_left
           (fun config item =>
              let '(key, detected_svc) := item in
              if mem key config then
                update key
                  (fun svc =>
                     set_detected_port (detected_port detected_svc)
                       (set_detected_host (detected_host detected_svc) svc))
                  config
              else config)
           detected config) = Some svc'
      /\ same_user_fields svc svc'
      /\ (~ In key (keys detected) -> svc' = svc)
      /\ (forall det, wf detected -> get key detected = Some det ->
            detected_host svc' = detected_host det
            /\ detected_port svc' = detected_port det).
Proof.
  induction detected as [|[k det] rest IH]; intros config key svc Hget.
  - exists svc. cbn. repeat split; auto using same_user_fields_refl.
    all: discriminate.
  - cbn [fold_left].
    destruct (String.eqb_spec key k) as [->|Hne].
    + (* the scanned key is the one looked up *)
      assert (Hmem : mem k config = true) by (unfold mem; now rewrite Hget).
      rewrite Hmem.
      set (f := fun svc0 : ServiceConfig =>
                  set_detected_port (detected_port det)
                    (set_detected_host (detected_host det) svc0)).
      assert (Hget' : get k (update k f config) = Some (f svc))
        by (rewrite get_update_same; now rewrite Hget).
      destruct (IH _ _ _ Hget') as (svc' & Hfin & Hsame & Hout & Hin).
      exists svc'. split; [exact Hfin|]. split; [|split].
      * eapply same_user_fields_trans; [|exact Hsame].
        apply same_user_fields_assign.
      * intros Hn. exfalso. apply Hn. now left.
      * intros d Hwf Hd. cbn [get] in Hd. rewrite String.eqb_refl in Hd.
        injection Hd as <-.
        unfold wf in Hwf. cbn [keys map fst] in Hwf.
        apply NoDup_cons_iff in Hwf as [Hfresh _].
        rewrite (Hout Hfresh). split; reflexivity.
    + (* another key *)
      set (config1 := if mem k config then update k _ config else config).
      assert (Hget' : get key config1 = Some svc).
      { subst config1. destruct (mem k config); [|exact Hget].
        rewrite get_update_other by exact Hne. exact Hget. }
      destruct (IH _ _ _ Hget') as (svc' & Hfin & Hsame & Hout & Hin).
      exists svc'. split; [exact Hfin|]. split; [exact Hsame|split].
      * intros Hn. apply Hout. intros H. apply Hn. now right.
      * intros d Hwf Hd. cbn [get] in Hd.
        destruct (String.eqb_spec key k); [contradiction|].
        unfold wf in Hwf. cbn [keys map fst] in Hwf.
        apply NoDup_cons_iff in Hwf as [_ Hwf]. now apply Hin.
Qed.

Lemma merge_loop_keys (detected : dict ServiceConfig) :
  forall config : dict ServiceConfig,
    keys
      (fold_left
         (fun config item =>
            let '(key, detected_svc) := item in
            if mem key config then
              update key
                (fun svc =>
                   set_detected_port (detected_port detected_svc)
                     (set_detected_host (detected_host detected_svc) svc))
                config
            else config)
         detected config) = keys config.
Proof.
  induction detected as [|[k det] rest IH]; intros config; [reflexivity|].
  cbn [fold_left]. rewrite IH.
  destruct (mem k config); [apply keys_update|reflexivity].
Qed.

(** C5: merging a discovery result into a live registry keeps the keys
    and their order, and for every entry of the registry it leaves every
    field other than [detected_host] and [detected_port] as it was
    ([use_existing], [custom_host] and [custom_port] among them); an
    entry whose key the discovery result does not have is not changed at
    all, and an entry whose key it has takes the two detected fields of
    the discovery result. *)
Theorem merge_changes_only_detected_fields
    (config detected : dict ServiceConfig) :
  (config <> [] ->
     keys (merge_detected (Some config) detected) = keys config)
  /\ (forall key svc,
        get key config = Some svc ->
        exists svc',
          get key (merge_detected (Some config) detected) = Some svc'
          /\ same_user_fields svc svc'
          /\ (~ In key (keys detected) -> svc' = svc)
          /\ (forall det, wf detected -> get key detected = Some det ->
                detected_host svc' = detected_host det
                /\ detected_port svc' = detected_port det)).
Proof.
  split.
  - intros Hne. destruct config as [|item config]; [contradiction|].
    exact (merge_loop_keys detected (item :: config)).
  - intros key svc Hget. destruct config as [|item config]; [discriminate|].
    exact (merge_loop_get detected (item :: config) key svc Hget).
Qed.

End Merge.

(* ================================================================== *)
(** ** Persisted configuration                                         *)
(* ================================================================== *)

Section Persistence.
Import Py.
Import DeployConfig.

(** The constructor rebuilds a state from its own [asdict]. *)
Lemma ServiceConfig_of_asdict (s : ServiceConfig) :
  ServiceConfig_of_kwargs (asdict s) = Some s.
Proof.
  destruct s as [n d h p u req cue dh dp ue ch cp].
  destruct dh, dp, ch, cp; reflexivity.
Qed.

(** The dict comprehension of [save_deployment_config]. *)
Lemma services_document_map (services : dict ServiceConfig) :
  wf services ->
  services_document services
  = map (fun item => (fst item, JObj (asdict (snd item)))) services.
Proof.
  intros Hwf. unfold services_document.
  exact (fold_set_map (fun _ s => JObj (asdict s)) services [] Hwf).
Qed.

(** The loop of [load_deployment_config] on a saved document. *)
Lemma load_services_saved (services : dict ServiceConfig) :
  forall acc : dict ServiceConfig,
    NoDup (keys acc ++ keys services) ->
    load_services
      (map (fun item => (fst item, JObj (asdict (snd item)))) services) acc
    = Some (acc ++ services)%list.
Proof.
  induction services as [|[k s] rest IH]; intros acc Hnd.
  - cbn. now rewrite app_nil_r.
  - cbn [map fst snd load_services]. rewrite ServiceConfig_of_asdict.
    cbn [keys map fst] in Hnd.
    assert (Hk : ~ In k (keys acc)).
    { apply NoDup_remove_2 in Hnd. intros Hin. apply Hnd.
      apply in_or_app. now left. }
    rewrite set_fresh by exact Hk. rewrite IH.
    + now rewrite <- app_assoc.
    + unfold keys in *. rewrite map_app. cbn [map fst].
      rewrite <- app_assoc. exact Hnd.
Qed.

(** C6: saving a registry to the configuration file and loading that
    file back gives the registry itself: the same keys in the same order,
    and under each key a state equal in every field. *)
Theorem save_load_roundtrip (services : dict ServiceConfig)
    (path : string) (fs : FileSystem) :
  wf services ->
  load_deployment_config path (save_deployment_config services path fs)
  = Some services.
Proof.
  intros Hwf. unfold load_deployment_config, save_deployment_config.
  rewrite String.eqb_refl. cbn [get String.eqb Ascii.eqb Bool.eqb].
  rewrite services_document_map by exact Hwf.
  exact (load_services_saved services [] Hwf).
Qed.

Lemma DEFAULT_SERVICES_wf : wf DEFAULT_SERVICES.
Proof.
  unfold wf, DEFAULT_SERVICES, keys. cbn [map fst].
  repeat (constructor; [cbn [In]; intuition discriminate|]). constructor.
Qed.

Lemma external_stores_wf : wf Fixtures.external_stores.
Proof.
  unfold wf. unfold Fixtures.external_stores. rewrite !keys_update.
  exact DEFAULT_SERVICES_wf.
Qed.

(** The round trip on a registry with reused stores, over an empty disk. *)
Lemma save_load_roundtrip_witness :
  load_deployment_config "docker/deployment_config.json"
    (save_deployment_config Fixtures.external_stores
       "docker/deployment_config.json" (fun _ => None))
  = Some Fixtures.external_stores.
Proof.
  apply (save_load_roundtrip Fixtures.external_stores
           "docker/deployment_config.json" (fun _ => None)).
  exact external_stores_wf.
Defined.

End Persistence.

(* ================================================================== *)
(** ** Strings                                                         *)
(* ================================================================== *)

Section StringFacts.

Lemma append_assoc (a b c : string) : (a ++ b) ++ c = a ++ (b ++ c).
Proof. induction a as [|x a IH]; cbn; [reflexivity|]. now rewrite IH. Qed.

Lemma append_nil_r (a : string) : a ++ "" = a.
Proof. induction a as [|x a IH]; cbn; [reflexivity|]. now rewrite IH. Qed.

(** A loop of [+=] on a string appends the pieces in order. *)
Lemma fold_append {A : Type} (f : A -> string) (l : list A) :
  forall y : string,
    fold_left (fun y x => y ++ f x) l y = y ++ String.concat "" (map f l).
Proof.
  induction l as [|x l IH]; intros y; cbn [fold_left map].
  - cbn. now rewrite append_nil_r.
  - rewrite IH, append_assoc. f_equal.
    destruct l as [|x' l]; cbn; [now rewrite append_nil_r|reflexivity].
Qed.

Lemma str_in_iff (x : string) (xs : list string) :
  Py.str_in x xs = true <-> In x xs.
Proof.
  unfold Py.str_in. rewrite existsb_exists. split.
  - intros (y & Hin & Heq). apply String.eqb_eq in Heq. now subst.
  - intros Hin. exists x. split; [exact Hin|apply String.eqb_refl].
Qed.

Lemma str_in_false_iff (x : string) (xs : list string) :
  Py.str_in x xs = false <-> ~ In x xs.
Proof.
  rewrite <- str_in_iff. destruct (Py.str_in x xs); intuition congruence.
Qed.

End StringFacts.

(* ================================================================== *)
(** ** Orchestration override                                          *)
(* ================================================================== *)

Section Override.
Import Py.
Import DeployConfig.

Lemma classify_fold (services : dict ServiceConfig) :
  forall (D : list string) (O : list PortOverride),
    fold_left classify_step services (D, O)
    = ((D ++ map fst (filter (fun item => reused (snd item)) services))%list,
       (O ++ flat_map override_of services)%list).
Proof.
  induction services as [|[k s] rest IH]; intros D O.
  - cbn. now rewrite !app_nil_r.
  - cbn [fold_left classify_step filter flat_map snd fst].
    unfold override_of at 1. cbn [snd fst]. fold (reused s).
    destruct (reused s).
    + rewrite IH. cbn [map fst app]. now rewrite <- app_assoc.
    + destruct (negb (effective_port s =? default_port s)); rewrite IH.
      * now rewrite <- app_assoc.
      * reflexivity.
Qed.

Lemma disabled_services_filter (services : dict ServiceConfig) :
  disabled_services services
  = map fst (filter (fun item => reused (snd item)) services).
Proof. unfold disabled_services, classify. now rewrite classify_fold. Qed.

Lemma port_overrides_flat_map (services : dict ServiceConfig) :
  port_overrides services = flat_map override_of services.
Proof. unfold port_overrides, classify. now rewrite classify_fold. Qed.

Lemma disabled_services_iff (services : dict ServiceConfig) (key : string) :
  In key (disabled_services services) <-> disabled_in services key.
Proof.
  rewrite disabled_services_filter, in_map_iff. unfold disabled_in. split.
  - intros ([k s] & Hk & Hin). cbn in Hk. subst k.
    apply filter_In in Hin as [Hin Hr]. unfold reused in Hr. cbn in Hr.
    apply andb_true_iff in Hr. exists s. tauto.
  - intros (s & Hin & Hu & Hc). exists (key, s). split; [reflexivity|].
    apply filter_In. split; [exact Hin|]. unfold reused. cbn.
    now rewrite Hu, Hc.
Qed.

Lemma port_overrides_inv (services : dict ServiceConfig) (key : string) :
  In key (map po_service (port_overrides services)) ->
  exists s, In (key, s) services /\ reused s = false
            /\ effective_port s <> default_port s.
Proof.
  rewrite port_overrides_flat_map, in_map_iff.
  intros (o & Hk & Hin). apply in_flat_map in Hin as ([k s] & Hin & Ho).
  unfold override_of in Ho. cbn [fst snd] in Ho.
  destruct (reused s) eqn:Hr; [contradiction|].
  destruct (Z.eqb_spec (effective_port s) (default_port s)) as [|Hne];
    cbn in Ho; [contradiction|].
  destruct Ho as [<-|[]]. cbn in Hk. subst k. exists s. auto.
Qed.

(** The text of the override, section by section. *)
Lemma override_sections (services : dict ServiceConfig) :
  generate_docker_compose_override services
  = (yaml_header
       ++ String.concat "" (map profile_entry (disabled_services services)))
    ++ n8n_block (disabled_services services)
    ++ String.concat "" (map port_entry (port_overrides services))
    ++ match disabled_services services with
       | [] => ""
       | _ =>
           nl ++ "# Disabled services (using existing infrastructure):" ++ nl
           ++ String.concat ""
                (map (comment_entry services) (disabled_services services))
       end.
Proof.
  unfold generate_docker_compose_override.
  destruct (disabled_services services) as [|k D] eqn:HD.
  - rewrite !fold_append, !append_assoc.
    now rewrite (append_nil_r
                   (String.concat "" (map port_entry (port_overrides services)))).
  - rewrite !fold_append. now rewrite !append_assoc.
Qed.

(** C7: the override is the head, the n8n block and the tail.  When
    postgres or redis is disabled, the n8n block is a [depends_on] list
    holding exactly the members of postgres, redis that are not
    disabled; with both disabled it is the explicit empty list
    [depends_on: []]; with neither disabled the block is empty, so no
    rewrite of the dependencies of n8n is written. *)
Theorem n8n_depends_on_rewrite (services : dict ServiceConfig) :
  generate_docker_compose_override services
  = override_head services
    ++ n8n_block (disabled_services services)
    ++ override_tail services
  /\ (disabled_in services "postgres" -> disabled_in services "redis" ->
      n8n_block (disabled_services services)
      = "  n8n:" ++ nl ++ "    depends_on: []" ++ nl)
  /\ (disabled_in services "postgres" -> ~ disabled_in services "redis" ->
      n8n_block (disabled_services services)
      = "  n8n:" ++ nl ++ "    depends_on:" ++ nl ++ "      - redis" ++ nl)
  /\ (~ disabled_in services "postgres" -> disabled_in services "redis" ->
      n8n_block (disabled_services services)
      = "  n8n:" ++ nl ++ "    depends_on:" ++ nl ++ "      - postgres" ++ nl)
  /\ (~ disabled_in services "postgres" -> ~ disabled_in services "redis" ->
      n8n_block (disabled_services services) = "").
Proof.
  split; [apply override_sections|].
  repeat split; intros Hp Hr;
    rewrite <- disabled_services_iff in Hp, Hr;
    first [apply str_in_iff in Hp | apply str_in_false_iff in Hp];
    first [apply str_in_iff in Hr | apply str_in_false_iff in Hr];
    unfold n8n_block, n8n_dependencies; rewrite Hp, Hr; reflexivity.
Qed.

(** The override for a registry that reuses both stores. *)
Example override_with_both_stores_reused :
  generate_docker_compose_override Fixtures.external_stores
  = yaml_header
    ++ "  postgres:" ++ nl ++ "    profiles:" ++ nl ++ "      - disabled" ++ nl
    ++ "  redis:" ++ nl ++ "    profiles:" ++ nl ++ "      - disabled" ++ nl
    ++ "  n8n:" ++ nl ++ "    depends_on: []" ++ nl
    ++ nl ++ "# Disabled services (using existing infrastructure):" ++ nl
    ++ "# postgres: Using existing at localhost:6543" ++ nl
    ++ "# redis: Using existing at localhost:6379" ++ nl.
Proof. reflexivity. Qed.

(** C10: a service that goes to the disabled group gets no port remap,
    whatever its effective port is. *)
Theorem disabled_service_has_no_port_remap
    (services : dict ServiceConfig) (key : string) :
  wf services ->
  disabled_in services key ->
  In key (disabled_services services)
  /\ ~ In key (map po_service (port_overrides services)).
Proof.
  intros Hwf Hd. split; [now apply disabled_services_iff|].
  intros Hin. apply port_overrides_inv in Hin as (s' & Hin' & Hr & _).
  destruct Hd as (s & Hin & Hu & Hc).
  rewrite (wf_functional services key s' s Hwf Hin' Hin) in Hr.
  unfold reused in Hr. rewrite Hu, Hc in Hr. discriminate.
Qed.

Lemma postgres_disabled_in_external_stores :
  disabled_in Fixtures.external_stores "postgres"
  /\ (exists s, Py.get "postgres" Fixtures.external_stores = Some s
                /\ effective_port s = 6543 /\ default_port s = 5432).
Proof.
  split.
  - eexists. split; [right; left; reflexivity|]. split; reflexivity.
  - eexists. repeat split.
Qed.

(** Postgres reused on port 6543: disabled, and no remap of 6543:5432. *)
Lemma disabled_service_has_no_port_remap_witness :
  In "postgres" (disabled_services Fixtures.external_stores)
  /\ ~ In "postgres"
         (map po_service (port_overrides Fixtures.external_stores)).
Proof.
  apply (disabled_service_has_no_port_remap Fixtures.external_stores "postgres").
  - exact external_stores_wf.
  - exact (proj1 postgres_disabled_in_external_stores).
Defined.

End Override.

(* ================================================================== *)
(** ** Aggregate health reporter                                       *)
(* ================================================================== *)

Section Reporter.
Import Py.
Import HealthCheck.

Lemma health_loop (env : Env) (catalogue : dict ServiceEntry) :
  forall (acc : dict ServiceStatus) (a c : bool),
    let '(_, all, crit) :=
      fold_left (health_step env) catalogue (acc, a, c) in
    all = (a && forallb healthy (statuses env catalogue))%bool
    /\ crit
       = (c && forallb healthy
                 (filter status_critical (statuses env catalogue)))%bool.
Proof.
  induction catalogue as [|[n cfg] rest IH]; intros acc a c.
  - cbn. now rewrite !andb_true_r.
  - cbn [fold_left health_step statuses map fst snd filter].
    fold (statuses env rest).
    destruct (healthy (check_service env n cfg)) eqn:Hh; cbn [negb].
    + specialize (IH (Py.set n (check_service env n cfg) acc) a c).
      destruct (fold_left _ _ _) as [[d all] crit]. destruct IH as [-> ->].
      cbn [forallb]. rewrite Hh.
      destruct (status_critical (check_service env n cfg)); cbn [forallb];
        now rewrite ?Hh.
    + destruct (status_critical (check_service env n cfg)) eqn:Hc.
      * specialize (IH (Py.set n (check_service env n cfg) acc) false false).
        destruct (fold_left _ _ _) as [[d all] crit]. destruct IH as [-> ->].
        cbn [forallb]. rewrite Hh. cbn. now rewrite !andb_false_r.
      * specialize (IH (Py.set n (check_service env n cfg) acc) false c).
        destruct (fold_left _ _ _) as [[d all] crit]. destruct IH as [-> ->].
        cbn [forallb]. rewrite Hh. cbn. now rewrite !andb_false_r.
Qed.

Lemma forallb_filter_weaken {A : Type} (p q : A -> bool) (l : list A) :
  forallb p l = true -> forallb p (filter q l) = true.
Proof.
  induction l as [|x l IH]; [reflexivity|]. cbn [forallb filter].
  intros H. apply andb_true_iff in H as [Hx Hl].
  destruct (q x); cbn [forallb]; rewrite ?Hx; auto.
Qed.

(** C8: the exit code does not follow the health of the services on
    every run, against the exit codes that the script documents.  On a
    host whose [df] prints nothing on its standard output the resources
    have no [disk] entry, the human-readable report raises KeyError when
    it reads [used_percent], and the process ends with status 1: with
    every service healthy (the claim and the documentation say 0), and
    with the database container stopped (they say 2).  On a host with
    two GPUs the ValueError of [int] leaves [get_system_resources], and
    the status is 1 also for the JSON report.  On a host where neither
    happens the same services give 0 and 2. *)
Theorem health_cli_exit_code_after_exception :
  (all_healthy
     (run_health_check (Fixtures.without_requests 404 "Not Found") SERVICES)
   = true
   /\ main (Fixtures.without_requests 404 "Not Found")
        Fixtures.df_without_block_size Fixtures.human_report = 1
   /\ main (Fixtures.without_requests 404 "Not Found")
        Fixtures.linux_host Fixtures.human_report = 0)
  /\ (critical_healthy (run_health_check Fixtures.postgres_stopped SERVICES)
      = false
      /\ main Fixtures.postgres_stopped
           Fixtures.df_without_block_size Fixtures.human_report = 1
      /\ main Fixtures.postgres_stopped
           Fixtures.two_gpus Fixtures.json_report = 1
      /\ main Fixtures.postgres_stopped
           Fixtures.linux_host Fixtures.human_report = 2).
Proof. vm_compute. repeat split; reflexivity. Qed.

End Reporter.

(* ================================================================== *)
(** ** Environment-file upsert                                         *)
(* ================================================================== *)

Section EnvFile.
Import Py.
Import LcarsGuide.

Lemma upsert_loop (key value : string) (lines : list string) :
  forall (replaced : bool) (new_lines : list string),
    fold_left (upsert_step key value) lines (replaced, new_lines)
    = ((replaced || has_key_line key lines)%bool,
       (new_lines ++ map (replace_line key value) lines)%list).
Proof.
  induction lines as [|l lines IH]; intros replaced new_lines.
  - cbn. now rewrite orb_false_r, app_nil_r.
  - cbn [fold_left upsert_step has_key_line existsb map].
    unfold replace_line at 1.
    destruct (startswith l (key ++ "=")); rewrite IH, <- app_assoc; cbn [app].
    + now rewrite orb_true_r.
    + reflexivity.
Qed.

Lemma replace_line_absent (key value : string) (lines : list string) :
  has_key_line key lines = false -> map (replace_line key value) lines = lines.
Proof.
  induction lines as [|l lines IH]; [reflexivity|].
  cbn [has_key_line existsb map]. intros H.
  apply orb_false_iff in H as [Hl Hrest].
  unfold replace_line at 1. rewrite Hl. f_equal. now apply IH.
Qed.

Lemma prefix_key_line_key (key : string) :
  contains_equals key = false ->
  forall line, startswith line (key ++ "=") = true -> line_key line = key.
Proof.
  unfold startswith.
  induction key as [|c key IH]; intros Hk line Hp.
  - destruct line as [|c' rest]; [discriminate|].
    cbn [append String.prefix] in Hp.
    destruct (ascii_dec "=" c') as [<-|]; [reflexivity|discriminate].
  - cbn [contains_equals] in Hk. apply orb_false_iff in Hk as [Hc Hk].
    destruct line as [|c' rest]; [discriminate|].
    cbn [append String.prefix] in Hp.
    destruct (ascii_dec c c') as [<-|]; [|discriminate].
    cbn [line_key]. rewrite Hc. f_equal. now apply IH.
Qed.

(** C9 (as amended): the text written is the new lines joined by line
    feeds and closed by one, so it ends with a newline.  When some line
    starts with [KEY=], each such line becomes [KEY=VALUE] and every
    other line stays as it is, in place.  When none does, the lines are
    kept and [KEY=VALUE] is appended, after one empty separator line if
    the file has lines and the last of them is not blank.  For a key
    with no [=] in it, a line whose own key differs from the given key
    (the given key may be a proper prefix of it) does not start with
    [KEY=] and so is kept unchanged. *)
Theorem upsert_env_var_lines (content : option string) (key value : string) :
  let lines :=
    match content with Some text => splitlines text | None => [] end in
  upsert_env_var content key value
    = String.concat nl (upsert_lines lines key value) ++ nl
  /\ (has_key_line key lines = true ->
      upsert_lines lines key value = map (replace_line key value) lines)
  /\ (has_key_line key lines = false ->
      upsert_lines lines key value
      = (lines ++ separator lines ++ [env_line key value])%list)
  /\ (forall line, startswith line (key ++ "=") = true ->
        replace_line key value line = env_line key value)
  /\ (forall line, startswith line (key ++ "=") = false ->
        replace_line key value line = line)
  /\ (contains_equals key = false ->
      forall line, line_key line <> key ->
        startswith line (key ++ "=") = false).
Proof.
  intros lines. split; [reflexivity|].
  assert (Hloop := upsert_loop key value lines false []).
  cbn [orb app] in Hloop.
  split; [|split; [|split; [|split]]].
  - intros H. unfold upsert_lines. rewrite Hloop, H. reflexivity.
  - intros H. unfold upsert_lines. rewrite Hloop, H. cbn [negb].
    rewrite (replace_line_absent _ _ _ H). unfold separator.
    destruct lines as [|l rest]; [reflexivity|].
    destruct (blank (last (l :: rest) "")); cbn [negb].
    + reflexivity.
    + now rewrite <- app_assoc.
  - intros line H. unfold replace_line. now rewrite H.
  - intros line H. unfold replace_line. now rewrite H.
  - intros Hk line Hne.
    destruct (startswith line (key ++ "=")) eqn:Hp; [|reflexivity].
    exfalso. apply Hne. now apply prefix_key_line_key.
Qed.

(** C9, the claim as written fails twice.  Inserting [B=2] into a file
    whose only line is [A=1] writes three lines, the second one empty:
    more than the line for the key was inserted.  And with the key
    [A=B] the line [A=B=old], whose own key is [A], is replaced. *)
Lemma upsert_adds_separator_and_replaces_other_key :
  (upsert_env_var (Some ("A=1" ++ nl)) "B" "2"
     = "A=1" ++ nl ++ "" ++ nl ++ "B=2" ++ nl
   /\ upsert_lines ["A=1"] "B" "2" = ["A=1"; ""; "B=2"]
   /\ upsert_lines ["A=1"] "B" "2" <> ["A=1"; "B=2"])
  /\ (line_key "A=B=old" = "A"
      /\ "A" <> "A=B"
      /\ upsert_env_var (Some ("A=B=old" ++ nl)) "A=B" "new"
         = "A=B=new" ++ nl).
Proof. repeat split; try reflexivity; discriminate. Qed.

(** A key that is a proper prefix of another key leaves that line alone. *)
Example upsert_prefix_key :
  upsert_env_var (Some ("DB_HOST_PORT=5432" ++ nl ++ "DB_HOST=old" ++ nl))
    "DB_HOST" "postgres"
  = "DB_HOST_PORT=5432" ++ nl ++ "DB_HOST=postgres" ++ nl.
Proof. reflexivity. Qed.

End EnvFile.

(* ================================================================== *)
(** ** Health of one service                                           *)
(* ================================================================== *)

Section ServiceHealth.
Import Py.
Import DeployConfig.

Lemma check_http_endpoint_message (env : Env) (url : string) :
  fst (check_http_endpoint env url) = true
  <-> snd (check_http_endpoint env url) = None.
Proof.
  unfold check_http_endpoint.
  destruct (urlopen env url) as [status|code reason|reason|text].
  - destruct (status <? 500); cbn; intuition congruence.
  - destruct (int_in code [401; 403; 404]); cbn; intuition congruence.
  - cbn; intuition congruence.
  - cbn; intuition congruence.
Qed.

(** X1: a health verdict carries an error message exactly when it is
    unhealthy. *)
Theorem check_service_health_message (env : Env) (service : ServiceConfig) :
  fst (check_service_health env service) = true
  <-> snd (check_service_health env service) = None.
Proof.
  unfold check_service_health.
  destruct (startswith (effective_host service) "http://"
            || startswith (effective_host service) "https://")%bool.
  - destruct (check_port_available env _ _); cbn [negb].
    + destruct (startswith (health_check_url service) "tcp://").
      * cbn; intuition congruence.
      * apply check_http_endpoint_message.
    + cbn; intuition congruence.
  - destruct (check_port_available env _ _); cbn [negb].
    + destruct (startswith (health_check_url service) "tcp://").
      * cbn; intuition congruence.
      * apply check_http_endpoint_message.
    + cbn; intuition congruence.
Qed.

(** X2: for a host given without a scheme, a closed port makes the
    service unhealthy with the port message whatever its health
    endpoint is, and a TCP-only service with an open port is healthy:
    the health of a TCP-only service is the reachability of its
    effective host and port. *)
Theorem tcp_health_is_reachability (env : Env) (service : ServiceConfig) :
  plain_host (effective_host service) = true ->
  (check_port_available env (effective_host service)
     (effective_port service) = false ->
   check_service_health env service
   = (false,
      Some (port_message (effective_host service) (effective_port service))))
  /\ (startswith (health_check_url service) "tcp://" = true ->
      fst (check_service_health env service)
      = check_port_available env (effective_host service)
          (effective_port service)).
Proof.
  unfold plain_host, check_service_health, port_message. intros Hplain.
  apply negb_true_iff in Hplain. rewrite Hplain. split.
  - intros Hp. now rewrite Hp.
  - intros Htcp. destruct (check_port_available env _ _); cbn [negb].
    + now rewrite Htcp.
    + reflexivity.
Qed.

Lemma tcp_health_is_reachability_witness :
  (check_port_available (Fixtures.answering_with 500 "Internal Server Error")
     "localhost" 5432 = false ->
   check_service_health (Fixtures.answering_with 500 "Internal Server Error")
     (descriptor "PostgreSQL" "Database for n8n workflows" "localhost" 5432
        "tcp://{}:{}" true true)
   = (false, Some (port_message "localhost" 5432)))
  /\ (startswith "tcp://{}:{}" "tcp://" = true ->
      fst (check_service_health
             (Fixtures.answering_with 500 "Internal Server Error")
             (descriptor "PostgreSQL" "Database for n8n workflows" "localhost"
                5432 "tcp://{}:{}" true true))
      = true).
Proof.
  apply (tcp_health_is_reachability
           (Fixtures.answering_with 500 "Internal Server Error")
           (descriptor "PostgreSQL" "Database for n8n workflows" "localhost"
              5432 "tcp://{}:{}" true true)).
  reflexivity.
Defined.

End ServiceHealth.

(* ================================================================== *)
(** ** What a scan leaves alone                                        *)
(* ================================================================== *)

Section ScanFacts.
Import Py.
Import DeployConfig.
Import LcarsGuide.

Lemma get_map_values {U V : Type} (f : string -> U -> V) (d : dict U)
    (key : string) :
  get key (map (fun item => (fst item, f (fst item) (snd item))) d)
  = option_map (f key) (get key d).
Proof.
  induction d as [|[k v] d IH]; [reflexivity|]. cbn [map fst snd get].
  destruct (String.eqb_spec key k) as [->|_]; [reflexivity|exact IH].
Qed.

Lemma keys_map_values {U V : Type} (f : string -> U -> V) (d : dict U) :
  keys (map (fun item => (fst item, f (fst item) (snd item))) d) = keys d.
Proof.
  unfold keys. rewrite map_map. cbn [fst]. reflexivity.
Qed.

Lemma detect_service_same_descriptor (env : Env) (t : ServiceConfig) :
  same_descriptor t (detect_service env t).
Proof.
  unfold detect_service, same_descriptor.
  destruct (can_use_existing t) eqn:Hc; cbn [negb]; [|tauto].
  destruct (check_port_available env _ _); [|rewrite Hc; tauto].
  destruct (check_service_health env _) as [[|] msg]; cbn; rewrite Hc; tauto.
Qed.

Lemma detect_service_detected (env : Env) (t : ServiceConfig) :
  (detected_host (detect_service env t) = detected_host t
   /\ detected_port (detect_service env t) = detected_port t)
  \/ (detected_host (detect_service env t) = Some (default_host t)
      /\ detected_port (detect_service env t) = Some (default_port t)).
Proof.
  unfold detect_service.
  destruct (can_use_existing t); cbn [negb]; [|now left].
  destruct (check_port_available env _ _); [|now left].
  right. destruct (check_service_health env _) as [[|] msg]; now cbn.
Qed.

Lemma detect_service_never_reuses (env : Env) (t : ServiceConfig) :
  use_existing (detect_service env t) = true -> use_existing t = true.
Proof.
  unfold detect_service.
  destruct (can_use_existing t); cbn [negb]; [|trivial].
  destruct (check_port_available env _ _); [|trivial].
  destruct (check_service_health env _) as [[|] msg]; cbn; congruence.
Qed.

(** X4: scanning a descriptor that carries no detection yet never
    changes where the service resolves to: effective host, effective
    port and connection string are those of the descriptor, whatever
    the scan finds. *)
Theorem detect_service_keeps_connection_string
    (env : Env) (t : ServiceConfig) :
  detected_host t = None ->
  detected_port t = None ->
  effective_host (detect_service env t) = effective_host t
  /\ effective_port (detect_service env t) = effective_port t
  /\ connection_string (detect_service env t) = connection_string t.
Proof.
  intros Hh Hp.
  assert (H : effective_host (detect_service env t) = effective_host t
              /\ effective_port (detect_service env t) = effective_port t).
  { unfold detect_service.
    destruct (can_use_existing t); cbn [negb]; [|tauto].
    destruct (check_port_available env _ _); [|tauto].
    destruct (check_service_health env _) as [[|] msg];
      unfold effective_host, effective_port; cbn; rewrite ?Hh, ?Hp; cbn;
      destruct (truthy_str (custom_host t)), (truthy_int (custom_port t)),
        (use_existing t), (String.eqb (default_host t) "") eqn:?,
        (Z.eqb (default_port t) 0) eqn:?; auto. }
  destruct H as [H1 H2]. repeat split; trivial.
  unfold connection_string. now rewrite H1, H2.
Qed.

Lemma detect_service_keeps_connection_string_witness :
  effective_host
    (detect_service (Fixtures.answering_with 500 "Internal Server Error")
       (descriptor "Open WebUI" "LLM chat interface" "localhost" 3000
          "http://{}:{}/v1/models" true true))
  = "localhost"
  /\ effective_port
       (detect_service (Fixtures.answering_with 500 "Internal Server Error")
          (descriptor "Open WebUI" "LLM chat interface" "localhost" 3000
             "http://{}:{}/v1/models" true true))
     = 3000
  /\ connection_string
       (detect_service (Fixtures.answering_with 500 "Internal Server Error")
          (descriptor "Open WebUI" "LLM chat interface" "localhost" 3000
             "http://{}:{}/v1/models" true true))
     = "localhost:3000".
Proof.
  apply (detect_service_keeps_connection_string
           (Fixtures.answering_with 500 "Internal Server Error")
           (descriptor "Open WebUI" "LLM chat interface" "localhost" 3000
              "http://{}:{}/v1/models" true true));
    reflexivity.
Defined.

(** X5: a scan returns the keys of the catalogue in catalogue order, and
    under each key a state that agrees with the catalogue entry on the
    descriptor and on the custom host and port, whose [use_existing] is
    set only if the entry had it set, and whose detected fields are
    either those of the entry or its default host and port; an entry
    that cannot reuse infrastructure comes back as it is. *)
Theorem detect_existing_services_entries
    (env : Env) (catalogue : dict ServiceConfig) :
  wf catalogue ->
  keys (detect_existing_services env catalogue) = keys catalogue
  /\ forall key t,
       get key catalogue = Some t ->
       exists s,
         get key (detect_existing_services env catalogue) = Some s
         /\ same_descriptor t s
         /\ (use_existing s = true -> use_existing t = true)
         /\ ((detected_host s = detected_host t
              /\ detected_port s = detected_port t)
             \/ (detected_host s = Some (default_host t)
                 /\ detected_port s = Some (default_port t)))
         /\ (can_use_existing t = false -> s = t).
Proof.
  intros Hwf. rewrite (detect_existing_services_map env catalogue Hwf).
  split.
  - apply (keys_map_values (fun _ t => detect_service env t)).
  - intros key t Hget. exists (detect_service env t).
    rewrite (get_map_values (fun _ t => detect_service env t)), Hget.
    split; [reflexivity|].
    split; [apply detect_service_same_descriptor|].
    split; [apply detect_service_never_reuses|].
    split; [apply detect_service_detected|].
    apply detect_service_passthrough.
Qed.

Lemma detect_existing_services_entries_witness :
  keys (detect_existing_services
          (Fixtures.answering_with 500 "Internal Server Error")
          DEFAULT_SERVICES)
  = keys DEFAULT_SERVICES
  /\ forall key t,
       get key DEFAULT_SERVICES = Some t ->
       exists s,
         get key
           (detect_existing_services
              (Fixtures.answering_with 500 "Internal Server Error")
              DEFAULT_SERVICES) = Some s
         /\ same_descriptor t s
         /\ (use_existing s = true -> use_existing t = true)
         /\ ((detected_host s = detected_host t
              /\ detected_port s = detected_port t)
             \/ (detected_host s = Some (default_host t)
                 /\ detected_port s = Some (default_port t)))
         /\ (can_use_existing t = false -> s = t).
Proof.
  apply (detect_existing_services_entries
           (Fixtures.answering_with 500 "Internal Server Error")
           DEFAULT_SERVICES).
  exact DEFAULT_SERVICES_wf.
Defined.

Lemma same_user_fields_effective_host (svc svc' : ServiceConfig) :
  same_user_fields svc svc' -> use_existing svc = false ->
  effective_host svc' = effective_host svc.
Proof.
  unfold same_user_fields. intros H Hu. decompose [and] H.
  unfold effective_host.
  replace (custom_host svc') with (custom_host svc) by congruence.
  replace (use_existing svc') with false by congruence.
  replace (default_host svc') with (default_host svc) by congruence.
  now rewrite Hu.
Qed.

(** X6: merging a scan into the live registry never changes the
    effective host of a service that is to be deployed fresh
    ([use_existing = false]): what the scan found does not reach it. *)
Theorem merge_keeps_effective_host_when_fresh
    (config detected : dict ServiceConfig) (key : string)
    (svc : ServiceConfig) :
  get key config = Some svc ->
  use_existing svc = false ->
  exists svc',
    get key (merge_detected (Some config) detected) = Some svc'
    /\ use_existing svc' = false
    /\ effective_host svc' = effective_host svc.
Proof.
  intros Hget Hu. destruct config as [|item config]; [discriminate|].
  destruct (merge_loop_get detected (item :: config) key svc Hget)
    as (svc' & Hfin & Hsame & _).
  exists svc'. split; [exact Hfin|]. split.
  - unfold same_user_fields in Hsame. decompose [and] Hsame. congruence.
  - now apply same_user_fields_effective_host.
Qed.

Lemma merge_keeps_effective_host_when_fresh_witness :
  exists svc',
    get "ollama"
      (merge_detected (Some DEFAULT_SERVICES)
         [("ollama",
           mkServiceConfig "Ollama" "Local LLM inference server" "localhost"
             11434 "http://{}:{}/api/tags" true true
             (Some "10.0.0.9") (Some 11500) false None None)])
    = Some svc'
    /\ use_existing svc' = false
    /\ effective_host svc'
       = effective_host
           (descriptor "Ollama" "Local LLM inference server" "localhost"
              11434 "http://{}:{}/api/tags" true true).
Proof.
  apply (merge_keeps_effective_host_when_fresh DEFAULT_SERVICES
           [("ollama",
             mkServiceConfig "Ollama" "Local LLM inference server" "localhost"
               11434 "http://{}:{}/api/tags" true true
               (Some "10.0.0.9") (Some 11500) false None None)]
           "ollama"
           (descriptor "Ollama" "Local LLM inference server" "localhost"
              11434 "http://{}:{}/api/tags" true true));
    reflexivity.
Defined.

End ScanFacts.

(* ================================================================== *)
(** ** More on the orchestration override                              *)
(* ================================================================== *)

Section OverrideFacts.
Import Py.
Import DeployConfig.

(** X7: a port remap entry is written for a key exactly when the
    registry holds that key with a service that is not disabled and
    whose effective port differs from its default port; the entry maps
    the effective port (outside) to the default port (inside). *)
Theorem port_overrides_iff (services : dict ServiceConfig)
    (key : string) (inside outside : Z) :
  In (mkPortOverride key inside outside) (port_overrides services)
  <-> exists s,
        In (key, s) services
        /\ reused s = false
        /\ inside = default_port s
        /\ outside = effective_port s
        /\ outside <> inside.
Proof.
  rewrite port_overrides_flat_map, in_flat_map. split.
  - intros ([k s] & Hin & Ho). unfold override_of in Ho. cbn [fst snd] in Ho.
    destruct (reused s) eqn:Hr; [contradiction|].
    destruct (Z.eqb_spec (effective_port s) (default_port s)) as [|Hne];
      cbn in Ho; [contradiction|].
    destruct Ho as [Ho|[]]. injection Ho as Hk Hi He. subst key inside outside.
    exists s. auto.
  - intros (s & Hin & Hr & -> & -> & Hne). exists (key, s).
    split; [exact Hin|]. unfold override_of. cbn [fst snd]. rewrite Hr.
    destruct (Z.eqb_spec (effective_port s) (default_port s));
      [contradiction|]. now left.
Qed.

Lemma standard_deployment_lists (services : dict ServiceConfig) :
  standard_deployment services = true ->
  filter (fun item => reused (snd item)) services = []
  /\ flat_map override_of services = [].
Proof.
  unfold standard_deployment.
  induction services as [|[k s] rest IH]; [auto|].
  cbn [forallb filter flat_map snd]. intros H.
  apply andb_true_iff in H as [H Hrest].
  apply andb_true_iff in H as [Hr Hp]. apply negb_true_iff in Hr.
  destruct (IH Hrest) as [-> ->]. unfold override_of. cbn [snd fst].
  rewrite Hr, Hp. auto.
Qed.

(** X8: for a registry in which no service is reused and no port is
    changed, the override is the four-line header and nothing else. *)
Theorem standard_deployment_override (services : dict ServiceConfig) :
  standard_deployment services = true ->
  generate_docker_compose_override services = yaml_header.
Proof.
  intros H. apply standard_deployment_lists in H as [Hd Ho].
  unfold generate_docker_compose_override.
  rewrite disabled_services_filter, port_overrides_flat_map, Hd, Ho.
  cbn [map fold_left]. unfold n8n_block. cbn [str_in existsb orb].
  apply append_nil_r.
Qed.

Lemma standard_deployment_override_witness :
  generate_docker_compose_override DEFAULT_SERVICES = yaml_header.
Proof.
  apply (standard_deployment_override DEFAULT_SERVICES). reflexivity.
Defined.

Lemma get_some_of_key {V : Type} (d : dict V) (key : string) :
  In key (keys d) -> exists v, get key d = Some v.
Proof.
  induction d as [|[k v] d IH]; [contradiction|]. cbn [keys map fst In get].
  intros Hin. destruct (String.eqb_spec key k) as [->|Hne].
  - now exists v.
  - apply IH. destruct Hin as [Heq|Hin]; [congruence|exact Hin].
Qed.

(** X9: the disabled services are the keys of the registry whose
    service has [use_existing] and [can_use_existing] both set, in
    registry order; and every one of them is found again in the
    registry, so the lookup made for the closing comment block succeeds
    for each. *)
Theorem disabled_services_in_registry_order (services : dict ServiceConfig) :
  disabled_services services
  = map fst (filter (fun item => reused (snd item)) services)
  /\ forall key,
       In key (disabled_services services) ->
       exists s, get key services = Some s.
Proof.
  split; [apply disabled_services_filter|].
  intros key Hin. apply get_some_of_key.
  rewrite disabled_services_filter in Hin. apply in_map_iff in Hin.
  destruct Hin as (item & <- & Hin). apply filter_In in Hin as [Hin _].
  unfold keys. now apply in_map.
Qed.

End OverrideFacts.

(* ================================================================== *)
(** ** More on the persisted configuration                             *)
(* ================================================================== *)

Section LoadFacts.
Import Py.
Import DeployConfig.

Lemma forallb_str_in (ks allowed : list string) :
  forallb (fun k => str_in k allowed) ks = true <->
  forall k, In k ks -> In k allowed.
Proof.
  rewrite forallb_forall. split; intros H k Hin.
  - apply str_in_iff. now apply H.
  - apply str_in_iff. now apply H.
Qed.

Lemma in_keys_of_get {V : Type} (d : dict V) (key : string) (v : V) :
  get key d = Some v -> In key (keys d).
Proof.
  induction d as [|[k v'] d IH]; [discriminate|]. cbn [get keys map fst In].
  destruct (String.eqb_spec key k) as [->|_]; [now left|].
  intros H. right. now apply IH.
Qed.

Lemma mem_iff {V : Type} (d : dict V) (key : string) :
  mem key d = true <-> In key (keys d).
Proof.
  unfold mem. split.
  - destruct (get key d) as [v|] eqn:Hg; [|discriminate].
    intros _. exact (in_keys_of_get _ _ _ Hg).
  - intros Hin. destruct (get_some_of_key d key Hin) as [v ->]. reflexivity.
Qed.

(** A dict built by giving each name its value. *)
Lemma get_tabulate {V : Type} (g : string -> V) (names : list string)
    (f : string) :
  In f names -> get f (map (fun n => (n, g n)) names) = Some (g f).
Proof.
  induction names as [|n names IH]; [contradiction|].
  cbn [map get In]. destruct (String.eqb_spec f n) as [->|Hne].
  - reflexivity.
  - intros [->|Hin]; [contradiction|]. now apply IH.
Qed.

Lemma keys_tabulate {V : Type} (g : string -> V) (names : list string) :
  keys (map (fun n => (n, g n)) names) = names.
Proof.
  unfold keys. rewrite map_map. cbn [fst]. apply map_id.
Qed.

Lemma construct_accepts (kwargs : dict json) :
  (forallb (fun k => str_in k field_names) (keys kwargs)
   && forallb (fun f => mem f kwargs) required_fields)%bool = true
  <-> (forall k, In k (keys kwargs) -> In k field_names)
      /\ (forall f, In f required_fields -> In f (keys kwargs)).
Proof.
  rewrite andb_true_iff, forallb_str_in, forallb_forall.
  split; intros [Hk Hr]; (split; [exact Hk|]); intros f Hf.
  - apply mem_iff. now apply Hr.
  - apply mem_iff. now apply Hr.
Qed.

(** X11: the constructor accepts a set of keyword arguments exactly
    when every keyword is the name of a field and the seven fields
    without a default are all given, whatever the values are (a port
    given as text is stored as text).  The new instance has the twelve
    fields in declaration order; a field that was given holds the value
    given, and one that was not holds its default ([None], or [False]
    for [use_existing]). *)
Theorem construct_fields (kwargs : dict json) :
  (construct kwargs <> None
   <-> (forall k, In k (keys kwargs) -> In k field_names)
       /\ (forall f, In f required_fields -> In f (keys kwargs)))
  /\ (forall instance,
        construct kwargs = Some instance ->
        keys instance = field_names
        /\ (forall f j, get f kwargs = Some j -> get f instance = Some j)
        /\ (forall f,
              In f field_names -> get f kwargs = None ->
              get f instance = Some (field_default f))).
Proof.
  unfold construct.
  destruct (forallb (fun k => str_in k field_names) (keys kwargs)
            && forallb (fun f => mem f kwargs) required_fields)%bool eqn:E.
  - apply construct_accepts in E as HE. split.
    + split; [intros _; exact HE|discriminate].
    + intros instance H.
      set (g := fun f => match get f kwargs with
                         | Some j => j
                         | None => field_default f
                         end).
      assert (Hi : instance = map (fun n => (n, g n)) field_names)
        by (injection H as <-; reflexivity).
      clear H. subst instance. split; [|split].
      * apply keys_tabulate.
      * intros f j Hg. destruct HE as [Hk _].
        assert (Hf := Hk f (in_keys_of_get _ _ _ Hg)).
        rewrite (get_tabulate g field_names f Hf). subst g. cbn beta.
        now rewrite Hg.
      * intros f Hf Hg.
        rewrite (get_tabulate g field_names f Hf). subst g. cbn beta.
        now rewrite Hg.
  - split.
    + split; [intros H; now contradiction H|].
      intros HE. apply construct_accepts in HE. rewrite HE in E.
      discriminate.
    + discriminate.
Qed.

Lemma load_instances_built (items : dict json) :
  forall (acc out : dict (dict json)),
    NoDup (keys acc ++ keys items) ->
    load_instances items acc = Some out
    <-> exists registry,
          out = (acc ++ registry)%list /\ Forall2 built_from items registry.
Proof.
  induction items as [|[key data] rest IH]; intros acc out Hnd.
  - cbn [load_instances]. split.
    + intros H. injection H as <-. exists []. split.
      * now rewrite app_nil_r.
      * constructor.
    + intros (registry & -> & Hall). inversion Hall. now rewrite app_nil_r.
  - cbn [keys map fst] in Hnd.
    assert (Hk : ~ In key (keys acc)).
    { apply NoDup_remove_2 in Hnd. intros Hin. apply Hnd.
      apply in_or_app. now left. }
    assert (Hnd' : forall instance : dict json,
               NoDup (keys (acc ++ [(key, instance)])%list ++ keys rest)).
    { intros instance. unfold keys in *. rewrite map_app. cbn [map fst].
      rewrite <- app_assoc. exact Hnd. }
    cbn [load_instances]. split.
    + destruct data as [| | | | |kwargs]; try discriminate.
      destruct (construct kwargs) as [instance|] eqn:Hc; [|discriminate].
      rewrite set_fresh by exact Hk. intros H.
      apply (IH _ _ (Hnd' instance)) in H as (registry & -> & Hall).
      exists ((key, instance) :: registry). split.
      * now rewrite <- app_assoc.
      * constructor; [|exact Hall].
        split; [reflexivity|]. exists kwargs. now split.
    + intros (registry & -> & Hall).
      inversion Hall as [|item [k instance] items' registry' Hb Hrest];
        subst.
      destruct Hb as [Hkey (kwargs & Hdata & Hc)].
      cbn [fst snd] in Hkey, Hdata, Hc. subst k data.
      rewrite Hc. rewrite set_fresh by exact Hk.
      apply (IH _ _ (Hnd' instance)). exists registry'. split.
      * now rewrite <- app_assoc.
      * exact Hrest.
Qed.

(** X10: loading is all or nothing, and looks at the names of the
    members only.  The file loads exactly when every member of its
    [services] object is an object that the constructor accepts; the
    registry then has one instance per member, in the order of the file
    and under the member's key.  A single member that the constructor
    refuses makes the whole load give nothing. *)
Theorem load_builds_every_member (path : string) (fs : FileSystem)
    (members items : dict json) (registry : dict (dict json)) :
  fs path = Some (JObj members) ->
  get "services" members = Some (JObj items) ->
  wf items ->
  load_deployment_instances path fs = Some registry
  <-> Forall2 built_from items registry.
Proof.
  intros Hfile Hmem Hwf. unfold load_deployment_instances.
  rewrite Hfile, Hmem.
  rewrite (load_instances_built items [] registry Hwf).
  cbn [app]. split.
  - intros (r & -> & Hall). exact Hall.
  - intros Hall. now exists registry.
Qed.

Lemma hand_written_services_wf : wf [("redis", JObj Fixtures.hand_written_redis)].
Proof. repeat constructor. intros []. Qed.

Lemma load_builds_every_member_witness :
  load_deployment_instances "docker/deployment_config.json"
    (fun _ => Some (JObj Fixtures.hand_written_document))
  = Some
      [("redis",
        [ ("name", JStr "Redis");
          ("description", JStr "Task queue and caching");
          ("default_host", JStr "localhost");
          ("default_port", JStr "6379");
          ("health_check_url", JStr "tcp://{}:{}");
          ("required", JBool false);
          ("can_use_existing", JBool true);
          ("detected_host", JNull);
          ("detected_port", JNull);
          ("use_existing", JBool false);
          ("custom_host", JNull);
          ("custom_port", JNull) ])]
  <-> Forall2 built_from [("redis", JObj Fixtures.hand_written_redis)]
        [("redis",
          [ ("name", JStr "Redis");
            ("description", JStr "Task queue and caching");
            ("default_host", JStr "localhost");
            ("default_port", JStr "6379");
            ("health_check_url", JStr "tcp://{}:{}");
            ("required", JBool false);
            ("can_use_existing", JBool true);
            ("detected_host", JNull);
            ("detected_port", JNull);
            ("use_existing", JBool false);
            ("custom_host", JNull);
            ("custom_port", JNull) ])].
Proof.
  apply (load_builds_every_member "docker/deployment_config.json"
           (fun _ => Some (JObj Fixtures.hand_written_document))
           Fixtures.hand_written_document).
  - reflexivity.
  - reflexivity.
  - exact hand_written_services_wf.
Defined.

(** The equations that a successful call of the constructor at the
    annotated types leaves behind. *)
Ltac constructor_fields H :=
  unfold ServiceConfig_of_kwargs in H;
  match type of H with
  | (if negb ?b then _ else _) = _ =>
      destruct b eqn:Hknown; cbn [negb] in H; [|discriminate]
  end;
  destruct (kwarg "name" as_str None _) as [n|] eqn:Hn; [|discriminate];
  destruct (kwarg "description" as_str None _) as [d|] eqn:Hd;
    [|discriminate];
  destruct (kwarg "default_host" as_str None _) as [h|] eqn:Hh;
    [|discriminate];
  destruct (kwarg "default_port" as_int None _) as [p|] eqn:Hp;
    [|discriminate];
  destruct (kwarg "health_check_url" as_str None _) as [u|] eqn:Hu;
    [|discriminate];
  destruct (kwarg "required" as_bool None _) as [req|] eqn:Hreq;
    [|discriminate];
  destruct (kwarg "can_use_existing" as_bool None _) as [cue|] eqn:Hcue;
    [|discriminate];
  destruct (kwarg "detected_host" as_opt_str (Some None) _) as [dh|] eqn:Hdh;
    [|discriminate];
  destruct (kwarg "detected_port" as_opt_int (Some None) _) as [dp|] eqn:Hdp;
    [|discriminate];
  destruct (kwarg "use_existing" as_bool (Some false) _) as [ue|] eqn:Hue;
    [|discriminate];
  destruct (kwarg "custom_host" as_opt_str (Some None) _) as [ch|] eqn:Hch;
    [|discriminate];
  destruct (kwarg "custom_port" as_opt_int (Some None) _) as [cp|] eqn:Hcp;
    [|discriminate];
  injection H as <-;
  unfold kwarg in Hn, Hd, Hh, Hp, Hu, Hreq, Hcue, Hdh, Hdp, Hue, Hch, Hcp.

(** One argument of an accepted call: given at its type, or left out. *)
Ltac argument_cases :=
  repeat match goal with
  | Hx : match get ?g ?kw with _ => _ end = Some _ |- _ =>
      let j := fresh "j" in
      let G := fresh "G" in
      destruct (get g kw) as [j|] eqn:G;
      [ destruct j;
        cbn [as_str as_int as_bool as_opt_str as_opt_int] in Hx;
        try discriminate Hx
      | try discriminate Hx ];
      injection Hx as Hx; subst
  end.

(** Where the file holds a value of the annotated type for every field,
    the instance that the constructor builds is the typed state. *)
Lemma construct_at_annotated_types (kwargs : dict json) (s : ServiceConfig) :
  ServiceConfig_of_kwargs kwargs = Some s ->
  construct kwargs = Some (asdict s).
Proof.
  intros H. constructor_fields H.
  unfold construct. rewrite Hknown.
  unfold mem, required_fields, field_names, asdict.
  cbn [forallb map].
  argument_cases; reflexivity.
Qed.

Lemma set_attributes (key : string) (s : ServiceConfig)
    (services : dict ServiceConfig) :
  set key (asdict s) (attributes services) = attributes (set key s services).
Proof.
  unfold attributes.
  induction services as [|[k v] rest IH]; [reflexivity|].
  cbn [map set fst snd]. destruct (String.eqb key k); cbn [map fst snd].
  - reflexivity.
  - now rewrite IH.
Qed.

Lemma load_services_instances (items : dict json) :
  forall services out : dict ServiceConfig,
    load_services items services = Some out ->
    load_instances items (attributes services) = Some (attributes out).
Proof.
  induction items as [|[key data] rest IH]; intros services out H.
  - cbn in *. now injection H as <-.
  - cbn [load_services load_instances] in *.
    destruct data as [| | | | |kwargs]; try discriminate.
    destruct (ServiceConfig_of_kwargs kwargs) as [s|] eqn:Hs; [|discriminate].
    rewrite (construct_at_annotated_types _ _ Hs).
    rewrite set_attributes. now apply IH.
Qed.

(** The loader at the annotated types is the loader on any document,
    read at those types. *)
Lemma load_deployment_config_instances (path : string) (fs : FileSystem)
    (services : dict ServiceConfig) :
  load_deployment_config path fs = Some services ->
  load_deployment_instances path fs = Some (attributes services).
Proof.
  unfold load_deployment_config, load_deployment_instances.
  destruct (fs path) as [[| | | | |members]|]; try discriminate.
  destruct (get "services" members) as [[| | | | |items]|]; try discriminate.
  - apply (load_services_instances items []).
  - intros H. now injection H as <-.
Qed.

End LoadFacts.


(* ================================================================== *)
(** ** Validation of user input                                        *)
(* ================================================================== *)

Section Validation.
Import Py.
Import DeployConfig.

(** X13: the only hostname that is rejected is the empty one.  Whenever
    a verdict comes back for a non-empty hostname it is "valid", also
    when the name does not resolve; and the three names of the local
    host are accepted without asking the resolver. *)
Theorem validate_hostname_rejects_only_empty
    (gethostbyname : string -> ResolveOutcome) (hostname : string) :
  (validate_hostname gethostbyname hostname
   = Some (false, Some "Hostname cannot be empty")
   <-> hostname = "")
  /\ (forall verdict,
        validate_hostname gethostbyname hostname = Some verdict ->
        hostname <> "" -> verdict = (true, None))
  /\ (In hostname ["localhost"; "127.0.0.1"; "::1"] ->
      validate_hostname gethostbyname hostname = Some (true, None)).
Proof.
  unfold validate_hostname. repeat split.
  - destruct (String.eqb_spec hostname ""); [trivial|].
    destruct (str_in hostname _); [discriminate|].
    destruct (gethostbyname hostname); discriminate.
  - intros ->. reflexivity.
  - intros verdict H Hne.
    destruct (String.eqb_spec hostname ""); [contradiction|].
    destruct (str_in hostname _); [congruence|].
    destruct (gethostbyname hostname); congruence.
  - intros Hin. cbn [In] in Hin.
    destruct Hin as [<-|[<-|[<-|[]]]]; reflexivity.
Qed.

(** X12: [validate_port] accepts whatever [int] turns into an integer
    from 1 to 65535, and returns that integer: a float is cut towards
    zero, [True] is port 1, a string goes through the integer parser.
    Every other verdict is invalid, with no port and a message.  The one
    call that gives no verdict is the one on which [int] raises
    OverflowError (an infinite float), which the function does not
    catch. *)
Theorem validate_port_range (parse : string -> option Z) (port : value) :
  (forall p,
      validate_port parse port = Some (true, Some p, None)
      <-> int parse port = IntOk p /\ 1 <= p <= 65535)
  /\ (forall verdict,
        validate_port parse port = Some verdict ->
        (exists p, verdict = (true, Some p, None))
        \/ verdict = (false, None, Some "Port must be between 1 and 65535")
        \/ verdict = (false, None, Some "Port must be a number"))
  /\ (validate_port parse port = None
      <-> int parse port = IntOverflowError)
  /\ validate_port parse (VFloat (809 # 10)) = Some (true, Some 80, None)
  /\ validate_port parse (VBool true) = Some (true, Some 1, None)
  /\ validate_port parse (VInt 0)
     = Some (false, None, Some "Port must be between 1 and 65535")
  /\ validate_port parse VNone
     = Some (false, None, Some "Port must be a number")
  /\ validate_port parse VInfinity = None.
Proof.
  unfold validate_port.
  split; [|split; [|split; [|repeat split; reflexivity]]].
  - intros p. destruct (int parse port) as [n| | |].
    + destruct ((n <? 1) || (n >? 65535))%bool eqn:E.
      * split; [discriminate|]. intros [Hn Hr]. injection Hn as ->.
        apply orb_true_iff in E as [E|E]; lia.
      * apply orb_false_iff in E as [E1 E2].
        split.
        -- intros H. injection H as ->. split; [reflexivity|lia].
        -- intros [Hn _]. now injection Hn as ->.
    + split; [discriminate|intros [H _]; discriminate].
    + split; [discriminate|intros [H _]; discriminate].
    + split; [discriminate|intros [H _]; discriminate].
  - intros verdict. destruct (int parse port) as [n| | |].
    + destruct ((n <? 1) || (n >? 65535))%bool; intros H; injection H as <-.
      * right. now left.
      * left. now exists n.
    + intros H; injection H as <-. right. now right.
    + intros H; injection H as <-. right. now right.
    + discriminate.
  - destruct (int parse port) as [n| | |].
    + destruct ((n <? 1) || (n >? 65535))%bool; split; discriminate.
    + split; discriminate.
    + split; discriminate.
    + split; reflexivity.
Qed.

End Validation.

(* ================================================================== *)
(** ** More on the aggregate health report                             *)
(* ================================================================== *)

Section ReportFacts.
Import Py.
Import HealthCheck.

Lemma health_loop_services (env : Env) (catalogue : dict ServiceEntry) :
  forall (acc : dict ServiceStatus) (a c : bool),
    NoDup (keys acc ++ keys catalogue) ->
    fst (fst (fold_left (health_step env) catalogue (acc, a, c)))
    = (acc ++ map (fun item =>
                     (fst item, check_service env (fst item) (snd item)))
                catalogue)%list.
Proof.
  induction catalogue as [|[n cfg] rest IH]; intros acc a c Hnd.
  - cbn. now rewrite app_nil_r.
  - cbn [fold_left health_step map fst snd].
    cbn [keys map fst] in Hnd.
    assert (Hk : ~ In n (keys acc)).
    { apply NoDup_remove_2 in Hnd. intros Hin. apply Hnd.
      apply in_or_app. now left. }
    rewrite set_fresh by exact Hk.
    assert (Hnd' : NoDup (keys (acc ++ [(n, check_service env n cfg)])%list
                          ++ keys rest)).
    { unfold keys in *. rewrite map_app. cbn [map fst].
      rewrite <- app_assoc. exact Hnd. }
    destruct (negb (healthy (check_service env n cfg))).
    + rewrite IH by exact Hnd'. now rewrite <- app_assoc.
    + rewrite IH by exact Hnd'. now rewrite <- app_assoc.
Qed.

(** X14: the report lists one status per service of the catalogue, in
    catalogue order, each under the key of its service and each the
    result of checking that service alone. *)
Theorem run_health_check_services (env : Env)
    (catalogue : dict ServiceEntry) :
  wf catalogue ->
  services (run_health_check env catalogue)
  = map (fun item => (fst item, check_service env (fst item) (snd item)))
      catalogue.
Proof.
  intros Hwf.
  assert (H := health_loop_services env catalogue [] true true Hwf).
  unfold run_health_check.
  destruct (fold_left _ _ _) as [[d all] crit]. exact H.
Qed.

Lemma SERVICES_wf : wf SERVICES.
Proof.
  unfold wf, SERVICES, keys. cbn [map fst].
  repeat (constructor; [cbn [In]; intuition discriminate|]). constructor.
Qed.

Lemma run_health_check_services_witness :
  services (run_health_check (Fixtures.without_requests 404 "Not Found")
              SERVICES)
  = map (fun item =>
           (fst item,
            check_service (Fixtures.without_requests 404 "Not Found")
              (fst item) (snd item)))
      SERVICES.
Proof.
  apply (run_health_check_services
           (Fixtures.without_requests 404 "Not Found") SERVICES).
  exact SERVICES_wf.
Defined.

Lemma check_service_healthy (env : Env) (name : string)
    (config : ServiceEntry) :
  healthy (check_service env name config) = container_and_port_up env config.
Proof.
  unfold check_service, container_and_port_up.
  destruct (truthy_str (url config)) as [u|]; [|reflexivity].
  destruct (check_http_endpoint env u 5%Q) as [[ok t] e]. reflexivity.
Qed.

Lemma check_service_critical (env : Env) (name : string)
    (config : ServiceEntry) :
  status_critical (check_service env name config) = critical config.
Proof.
  unfold check_service.
  destruct (truthy_str (url config)) as [u|]; [|reflexivity].
  destruct (check_http_endpoint env u 5%Q) as [[ok t] e]. reflexivity.
Qed.

Lemma statuses_healthy (env : Env) (catalogue : dict ServiceEntry) :
  forallb healthy (statuses env catalogue)
  = forallb (fun item => container_and_port_up env (snd item)) catalogue.
Proof.
  induction catalogue as [|[n cfg] rest IH]; [reflexivity|].
  cbn [statuses map forallb fst snd]. fold (statuses env rest).
  now rewrite check_service_healthy, IH.
Qed.

Lemma critical_statuses_healthy (env : Env) (catalogue : dict ServiceEntry) :
  forallb healthy (filter status_critical (statuses env catalogue))
  = forallb (fun item => container_and_port_up env (snd item))
      (filter (fun item => critical (snd item)) catalogue).
Proof.
  induction catalogue as [|[n cfg] rest IH]; [reflexivity|].
  cbn [statuses map filter fst snd]. fold (statuses env rest).
  rewrite check_service_critical.
  destruct (critical cfg); cbn [forallb snd];
    now rewrite ?check_service_healthy, IH.
Qed.

Lemma run_health_check_flags (env : Env) (catalogue : dict ServiceEntry) :
  all_healthy (run_health_check env catalogue)
  = forallb (fun item => container_and_port_up env (snd item)) catalogue
  /\ critical_healthy (run_health_check env catalogue)
     = forallb (fun item => container_and_port_up env (snd item))
         (filter (fun item => critical (snd item)) catalogue).
Proof.
  assert (H := health_loop env catalogue [] true true).
  unfold run_health_check.
  destruct (fold_left _ _ _) as [[d all] crit]. destruct H as [-> ->].
  cbn [all_healthy critical_healthy andb].
  now rewrite statuses_healthy, critical_statuses_healthy.
Qed.

Lemma main_completed (env : Env) (host : Probes) (args : Args) :
  run_completes host args = true ->
  main env host args
  = if negb (critical_healthy (run_health_check env SERVICES)) then 2
    else if negb (all_healthy (run_health_check env SERVICES)) then 1
    else 0.
Proof.
  unfold run_completes, main. intros H.
  apply andb_true_iff in H as [Hd Hr].
  assert (He : existsb
                 (fun item => docker_raises host (container (snd item)))
                 SERVICES = false).
  { apply not_true_is_false. intros Hex.
    apply existsb_exists in Hex as (item & Hin & Hraise).
    rewrite forallb_forall in Hd. specialize (Hd item Hin).
    rewrite Hraise in Hd. discriminate. }
  rewrite He.
  destruct (get_system_resources host) as [resources|]; [|discriminate].
  destruct (json_flag args); cbn [negb andb orb] in *.
  - reflexivity.
  - rewrite Hr. reflexivity.
Qed.

Lemma main_interrupted (env : Env) (host : Probes) (args : Args) :
  run_completes host args = false -> main env host args = 1.
Proof.
  unfold run_completes, main. intros H.
  destruct (existsb _ SERVICES) eqn:He; [reflexivity|].
  assert (Hd : forallb
                 (fun item =>
                    negb (docker_raises host (container (snd item))))
                 SERVICES = true).
  { apply forallb_forall. intros item Hin.
    destruct (docker_raises host (container (snd item))) eqn:Hraise;
      [|reflexivity].
    assert (Hex : existsb
                    (fun item => docker_raises host (container (snd item)))
                    SERVICES = true).
    { apply existsb_exists. now exists item. }
    rewrite Hex in He. discriminate. }
  rewrite Hd in H. cbn [andb] in H.
  destruct (get_system_resources host) as [resources|]; [|reflexivity].
  apply orb_false_iff in H as [-> ->]. reflexivity.
Qed.

(** X29: health is decided by the container and the port alone.  A
    service is healthy exactly when its container runs and its port
    accepts connections, whatever its HTTP endpoint answers, and its
    status is critical exactly when the catalogue flags it; the report's
    [all_healthy] is the conjunction of the two checks over all services
    and [critical_healthy] the one over the services flagged critical.
    A run that no exception interrupts exits with 0 when every service
    passes, with 1 when every critical one does and another does not,
    and with 2 otherwise; an interrupted run exits with 1. *)
Theorem health_follows_container_and_port (env : Env) :
  (forall name config,
      healthy (check_service env name config)
      = container_and_port_up env config
      /\ status_critical (check_service env name config) = critical config)
  /\ (forall catalogue,
        all_healthy (run_health_check env catalogue)
        = forallb (fun item => container_and_port_up env (snd item))
            catalogue
        /\ critical_healthy (run_health_check env catalogue)
           = forallb (fun item => container_and_port_up env (snd item))
               (filter (fun item => critical (snd item)) catalogue))
  /\ (forall host args,
        main env host args
        = if run_completes host args then
            if forallb (fun item => container_and_port_up env (snd item))
                 SERVICES
            then 0
            else if forallb
                      (fun item => container_and_port_up env (snd item))
                      (filter (fun item => critical (snd item)) SERVICES)
            then 1
            else 2
          else 1).
Proof.
  split; [|split].
  - intros name config. split.
    + apply check_service_healthy.
    + apply check_service_critical.
  - apply run_health_check_flags.
  - intros host args.
    destruct (run_completes host args) eqn:Hrun.
    + rewrite main_completed by exact Hrun.
      destruct (run_health_check_flags env SERVICES) as [-> ->].
      set (every := forallb _ SERVICES).
      set (crit := forallb _ (filter _ SERVICES)).
      assert (Himp : every = true -> crit = true).
      { subst every crit. apply forallb_filter_weaken. }
      destruct every, crit; try reflexivity.
      discriminate (Himp eq_refl).
    + now apply main_interrupted.
Qed.

(** X15: a report whose [all_healthy] is true also has
    [critical_healthy] true.  A run over healthy services therefore
    never exits with 2, the code of a critical failure, and exits with 0
    whenever no exception interrupts it. *)
Theorem all_healthy_implies_critical_healthy (env : Env) :
  (forall catalogue,
      all_healthy (run_health_check env catalogue) = true ->
      critical_healthy (run_health_check env catalogue) = true)
  /\ (forall host args,
        all_healthy (run_health_check env SERVICES) = true ->
        main env host args <> 2
        /\ (run_completes host args = true -> main env host args = 0)).
Proof.
  assert (Hcrit : forall catalogue,
             all_healthy (run_health_check env catalogue) = true ->
             critical_healthy (run_health_check env catalogue) = true).
  { intros catalogue.
    destruct (run_health_check_flags env catalogue) as [-> ->].
    apply forallb_filter_weaken. }
  split; [exact Hcrit|].
  intros host args Hall.
  assert (Hc := Hcrit SERVICES Hall).
  destruct (run_completes host args) eqn:Hrun.
  - rewrite main_completed by exact Hrun. rewrite Hc, Hall. cbn [negb].
    split; [discriminate|reflexivity].
  - rewrite main_interrupted by exact Hrun.
    split; [discriminate|discriminate].
Qed.

End ReportFacts.

(* ================================================================== *)
(** ** More on the environment file                                    *)
(* ================================================================== *)

Section EnvFileFacts.
Import Py.
Import LcarsGuide.

Lemma upsert_lines_cases (lines : list string) (key value : string) :
  upsert_lines lines key value
  = if has_key_line key lines then map (replace_line key value) lines
    else (lines ++ separator lines ++ [env_line key value])%list.
Proof.
  assert (Hloop := upsert_loop key value lines false []).
  cbn [orb app] in Hloop. unfold upsert_lines. rewrite Hloop.
  destruct (has_key_line key lines) eqn:H; cbn [negb]; [reflexivity|].
  rewrite (replace_line_absent _ _ _ H). unfold separator.
  destruct lines as [|l rest]; [reflexivity|].
  destruct (blank (last (l :: rest) "")); cbn [negb].
  - reflexivity.
  - now rewrite <- app_assoc.
Qed.

Lemma prefix_append (a b : string) : String.prefix a (a ++ b) = true.
Proof.
  induction a as [|c a IH]; [now destruct b|]. cbn [append String.prefix].
  destruct (ascii_dec c c); [exact IH|contradiction].
Qed.

Lemma starts_env_line (key value : string) :
  startswith (env_line key value) (key ++ "=") = true.
Proof.
  unfold startswith, env_line. rewrite <- append_assoc. apply prefix_append.
Qed.

Lemma starts_empty (key : string) : startswith "" (key ++ "=") = false.
Proof. now destruct key. Qed.

Lemma replace_env_line (key v1 v2 : string) :
  replace_line key v2 (env_line key v1) = env_line key v2.
Proof. unfold replace_line. now rewrite starts_env_line. Qed.

Lemma has_key_line_map (key value : string) (lines : list string) :
  has_key_line key lines = true ->
  has_key_line key (map (replace_line key value) lines) = true.
Proof.
  unfold has_key_line. rewrite !existsb_exists.
  intros (l & Hin & Hs). exists (env_line key value). split.
  - apply in_map_iff. exists l. split; [|exact Hin].
    unfold replace_line. now rewrite Hs.
  - apply starts_env_line.
Qed.

Lemma has_key_line_app (key : string) (a b : list string) :
  has_key_line key (a ++ b) = (has_key_line key a || has_key_line key b)%bool.
Proof. unfold has_key_line. apply existsb_app. Qed.

Lemma separator_plain (key value : string) (lines : list string) :
  map (replace_line key value) (separator lines) = separator lines.
Proof.
  unfold separator. destruct lines as [|l rest]; [reflexivity|].
  destruct (blank _); [reflexivity|]. cbn [map]. unfold replace_line.
  now rewrite starts_empty.
Qed.

(** Writing a key twice leaves the lines of the second write alone. *)
Lemma upsert_lines_last_write (lines : list string) (key v1 v2 : string) :
  upsert_lines (upsert_lines lines key v1) key v2 = upsert_lines lines key v2.
Proof.
  rewrite (upsert_lines_cases lines key v1), (upsert_lines_cases lines key v2).
  destruct (has_key_line key lines) eqn:H.
  - rewrite upsert_lines_cases, has_key_line_map by exact H.
    rewrite map_map. apply map_ext. intros l.
    destruct (startswith l (key ++ "=")) eqn:Hs.
    + replace (replace_line key v1 l) with (env_line key v1)
        by (unfold replace_line; now rewrite Hs).
      rewrite replace_env_line. unfold replace_line. now rewrite Hs.
    + replace (replace_line key v1 l) with l
        by (unfold replace_line; now rewrite Hs).
      reflexivity.
  - rewrite upsert_lines_cases.
    assert (Hk : has_key_line key
                   (lines ++ separator lines ++ [env_line key v1]) = true).
    { rewrite !has_key_line_app. cbn [has_key_line existsb].
      rewrite starts_env_line. now rewrite !orb_true_r. }
    rewrite Hk, !map_app, (replace_line_absent _ _ _ H), separator_plain.
    cbn [map]. now rewrite replace_env_line.
Qed.

Lemma upsert_lines_has_entry (lines : list string) (key value : string) :
  In (env_line key value) (upsert_lines lines key value).
Proof.
  rewrite upsert_lines_cases.
  destruct (has_key_line key lines) eqn:H.
  - unfold has_key_line in H. apply existsb_exists in H as (l & Hin & Hs).
    apply in_map_iff. exists l. split; [|exact Hin].
    unfold replace_line. now rewrite Hs.
  - apply in_or_app. right. apply in_or_app. right. now left.
Qed.

(** X16: after an upsert the key can be looked up: the new lines hold
    [KEY=VALUE], and every line that starts with [KEY=] is that line, so
    no older value of the key is left in the file. *)
Theorem upsert_lines_lookup (lines : list string) (key value : string) :
  In (env_line key value) (upsert_lines lines key value)
  /\ forall line,
       In line (upsert_lines lines key value) ->
       startswith line (key ++ "=") = true ->
       line = env_line key value.
Proof.
  split; [apply upsert_lines_has_entry|].
  rewrite upsert_lines_cases. intros line Hin Hs.
  destruct (has_key_line key lines) eqn:H.
  - apply in_map_iff in Hin as (l & <- & _). unfold replace_line in *.
    destruct (startswith l (key ++ "=")) eqn:Hl; [reflexivity|congruence].
  - apply in_app_or in Hin as [Hin|Hin].
    + exfalso. unfold has_key_line in H.
      assert (Hex : existsb (fun l => startswith l (key ++ "=")) lines = true)
        by (apply existsb_exists; eauto).
      congruence.
    + apply in_app_or in Hin as [Hin|[<-|[]]]; [|reflexivity].
      exfalso. unfold separator in Hin.
      destruct lines as [|l rest]; [contradiction|].
      destruct (blank _); [contradiction|].
      destruct Hin as [<-|[]]. rewrite starts_empty in Hs. discriminate.
Qed.

Lemma no_linebreak_app (a b : string) :
  no_linebreak (a ++ b) = (no_linebreak a && no_linebreak b)%bool.
Proof.
  induction a as [|c a IH]; [reflexivity|]. cbn [append no_linebreak].
  now rewrite IH, andb_assoc.
Qed.

Lemma splitlines_from_plain (l : string) :
  no_linebreak l = true ->
  forall cur s, splitlines_from cur (l ++ s) = splitlines_from (cur ++ l) s.
Proof.
  induction l as [|c l IH]; intros Hl cur s.
  - now rewrite append_nil_r.
  - cbn [no_linebreak] in Hl. apply andb_true_iff in Hl as [Hc Hl].
    apply negb_true_iff in Hc. cbn [append splitlines_from]. rewrite Hc.
    rewrite (IH Hl). f_equal. rewrite append_assoc. reflexivity.
Qed.

Lemma splitlines_from_nl (cur s : string) :
  splitlines_from cur (nl ++ s) = cur :: splitlines_from "" s.
Proof. destruct s; reflexivity. Qed.

(** Lines without line boundaries, joined and closed by a line feed,
    are read back as they are. *)
Lemma splitlines_join (lines : list string) :
  lines <> [] ->
  Forall (fun l => no_linebreak l = true) lines ->
  splitlines (String.concat nl lines ++ nl) = lines.
Proof.
  unfold splitlines.
  induction lines as [|l rest IH]; [contradiction|]. intros _ Hall.
  inversion Hall as [|? ? Hl Hrest]; subst.
  destruct rest as [|l2 rest].
  - cbn [String.concat]. rewrite (splitlines_from_plain l Hl).
    cbn [append]. rewrite <- (append_nil_r nl) at 1.
    now rewrite splitlines_from_nl.
  - change (String.concat nl (l :: l2 :: rest))
      with (l ++ nl ++ String.concat nl (l2 :: rest)).
    rewrite !append_assoc, (splitlines_from_plain l Hl).
    cbn [append]. rewrite splitlines_from_nl. f_equal.
    apply IH; [discriminate|exact Hrest].
Qed.

Lemma splitlines_from_no_linebreak (n : nat) :
  forall s cur,
    (String.length s <= n)%nat ->
    no_linebreak cur = true ->
    Forall (fun l => no_linebreak l = true) (splitlines_from cur s).
Proof.
  induction n as [|n IH]; intros s cur Hlen Hcur.
  - destruct s; [|cbn in Hlen; lia]. cbn.
    destruct (String.eqb cur ""); repeat constructor; exact Hcur.
  - destruct s as [|c rest].
    + cbn. destruct (String.eqb cur ""); repeat constructor; exact Hcur.
    + cbn [String.length] in Hlen. cbn [splitlines_from].
      destruct (is_linebreak c) eqn:Hc.
      * constructor; [exact Hcur|].
        destruct rest as [|c' rest']; [apply IH; [cbn; lia|reflexivity]|].
        cbn [String.length] in Hlen.
        destruct (Ascii.eqb c (ascii_of_nat 13) && Ascii.eqb c' LF)%bool;
          apply IH; cbn [String.length]; try lia; reflexivity.
      * apply IH; [lia|]. rewrite no_linebreak_app, Hcur.
        cbn [no_linebreak]. now rewrite Hc.
Qed.

Lemma file_lines_no_linebreak (content : option string) :
  Forall (fun l => no_linebreak l = true) (file_lines content).
Proof.
  destruct content as [text|]; [|constructor].
  exact (splitlines_from_no_linebreak (String.length text) text ""
           (le_n _) eq_refl).
Qed.

Lemma upsert_lines_no_linebreak (lines : list string) (key value : string) :
  no_linebreak key = true -> no_linebreak value = true ->
  Forall (fun l => no_linebreak l = true) lines ->
  Forall (fun l => no_linebreak l = true) (upsert_lines lines key value).
Proof.
  intros Hk Hv Hall.
  assert (Hline : no_linebreak (env_line key value) = true).
  { unfold env_line. rewrite !no_linebreak_app, Hk, Hv. reflexivity. }
  rewrite upsert_lines_cases. destruct (has_key_line key lines).
  - apply Forall_forall. intros l Hin. apply in_map_iff in Hin as (l0 & <- & Hin).
    unfold replace_line. destruct (startswith l0 _); [exact Hline|].
    rewrite Forall_forall in Hall. now apply Hall.
  - apply Forall_app. split; [exact Hall|]. apply Forall_app. split.
    + unfold separator. destruct lines; [constructor|].
      destruct (blank _); repeat constructor.
    + repeat constructor. exact Hline.
Qed.

Lemma upsert_lines_not_nil (lines : list string) (key value : string) :
  upsert_lines lines key value <> [].
Proof.
  intros H. assert (Hin := upsert_lines_has_entry lines key value).
  rewrite H in Hin. contradiction.
Qed.

Lemma upsert_env_var_read_back (content : option string) (key value : string) :
  no_linebreak key = true -> no_linebreak value = true ->
  splitlines (upsert_env_var content key value)
  = upsert_lines (file_lines content) key value.
Proof.
  intros Hk Hv. unfold upsert_env_var. fold (file_lines content).
  apply splitlines_join.
  - apply upsert_lines_not_nil.
  - apply upsert_lines_no_linebreak; auto using file_lines_no_linebreak.
Qed.

(** X17: when neither the key nor the value holds a line boundary, the
    file that an upsert writes is read back, line by line, as exactly
    the lines that the upsert put together. *)
Theorem upsert_env_var_written_lines (content : option string)
    (key value : string) :
  no_linebreak key = true ->
  no_linebreak value = true ->
  file_lines (Some (upsert_env_var content key value))
  = upsert_lines (file_lines content) key value.
Proof. intros Hk Hv. now apply upsert_env_var_read_back. Qed.

Lemma upsert_env_var_written_lines_witness :
  file_lines (Some (upsert_env_var (Some ("A=1" ++ nl)) "B" "2"))
  = upsert_lines (file_lines (Some ("A=1" ++ nl))) "B" "2".
Proof.
  apply (upsert_env_var_written_lines (Some ("A=1" ++ nl)) "B" "2");
    reflexivity.
Defined.

(** X18: the last write of a key wins.  Upserting a key and then
    upserting it again gives the very file that the second upsert alone
    would have written (the key and the first value holding no line
    boundary); with the same value twice, the second upsert changes
    nothing. *)
Theorem upsert_env_var_last_write_wins (content : option string)
    (key v1 v2 : string) :
  no_linebreak key = true ->
  no_linebreak v1 = true ->
  upsert_env_var (Some (upsert_env_var content key v1)) key v2
  = upsert_env_var content key v2.
Proof.
  intros Hk Hv. unfold upsert_env_var at 1.
  rewrite (upsert_env_var_read_back content key v1 Hk Hv).
  rewrite upsert_lines_last_write. reflexivity.
Qed.

Lemma upsert_env_var_last_write_wins_witness :
  upsert_env_var
    (Some (upsert_env_var (Some ("DB_POSTGRESDB_HOST=old" ++ nl))
             "DB_POSTGRESDB_HOST" "postgres"))
    "DB_POSTGRESDB_HOST" "db.example.com"
  = upsert_env_var (Some ("DB_POSTGRESDB_HOST=old" ++ nl))
      "DB_POSTGRESDB_HOST" "db.example.com".
Proof.
  apply (upsert_env_var_last_write_wins
           (Some ("DB_POSTGRESDB_HOST=old" ++ nl))
           "DB_POSTGRESDB_HOST" "postgres" "db.example.com");
    reflexivity.
Defined.

End EnvFileFacts.

(* ================================================================== *)
(** ** The environment file after a save                               *)
(* ================================================================== *)

Section EnvUpdateFacts.
Import Py.
Import DeployConfig.
Import LcarsGuide.

Lemma upsert_keeps_line (lines : list string) (key value line : string) :
  In line lines -> startswith line (key ++ "=") = false ->
  In line (upsert_lines lines key value).
Proof.
  intros Hin Hs. rewrite upsert_lines_cases.
  destruct (has_key_line key lines).
  - apply in_map_iff. exists line. split; [|exact Hin].
    unfold replace_line. now rewrite Hs.
  - apply in_or_app. now left.
Qed.

Lemma upsert_keeps_unique (lines : list string) (key value k0 e : string) :
  (forall line, In line lines -> startswith line (k0 ++ "=") = true ->
                line = e) ->
  startswith (env_line key value) (k0 ++ "=") = false ->
  forall line,
    In line (upsert_lines lines key value) ->
    startswith line (k0 ++ "=") = true -> line = e.
Proof.
  intros Huniq Hother line Hin Hs. rewrite upsert_lines_cases in Hin.
  destruct (has_key_line key lines).
  - apply in_map_iff in Hin as (l & <- & Hl). unfold replace_line in *.
    destruct (startswith l (key ++ "=")); [congruence|now apply Huniq].
  - apply in_app_or in Hin as [Hin|Hin]; [now apply Huniq|].
    apply in_app_or in Hin as [Hin|[<-|[]]]; [|congruence].
    unfold separator in Hin. destruct lines as [|l rest]; [contradiction|].
    destruct (blank _); [contradiction|]. destruct Hin as [<-|[]].
    rewrite starts_empty in Hs. discriminate.
Qed.

Lemma apply_updates_keeps_line (updates : list (string * string)) :
  forall lines line,
    In line lines ->
    Forall (fun kv => startswith line (fst kv ++ "=") = false) updates ->
    In line (apply_updates lines updates).
Proof.
  induction updates as [|kv rest IH]; intros lines line Hin Hall; [exact Hin|].
  inversion Hall as [|? ? Hkv Hrest]; subst. cbn [apply_updates fold_left].
  apply IH; [|exact Hrest]. now apply upsert_keeps_line.
Qed.

Lemma apply_updates_keeps_unique (updates : list (string * string))
    (k0 e : string) :
  forall lines,
    (forall line, In line lines -> startswith line (k0 ++ "=") = true ->
                  line = e) ->
    Forall (fun kv => startswith (env_line (fst kv) (snd kv)) (k0 ++ "=")
                      = false) updates ->
    forall line,
      In line (apply_updates lines updates) ->
      startswith line (k0 ++ "=") = true -> line = e.
Proof.
  induction updates as [|kv rest IH]; intros lines Huniq Hall; [exact Huniq|].
  inversion Hall as [|? ? Hkv Hrest]; subst. cbn [apply_updates fold_left].
  apply IH; [|exact Hrest]. now apply upsert_keeps_unique.
Qed.

Lemma upsert_lines_unique (lines : list string) (key value : string) :
  forall line,
    In line (upsert_lines lines key value) ->
    startswith line (key ++ "=") = true -> line = env_line key value.
Proof.
  rewrite upsert_lines_cases. intros line Hin Hs.
  destruct (has_key_line key lines) eqn:H.
  - apply in_map_iff in Hin as (l & <- & _). unfold replace_line in *.
    destruct (startswith l (key ++ "=")) eqn:Hl; [reflexivity|congruence].
  - apply in_app_or in Hin as [Hin|Hin].
    + exfalso. unfold has_key_line in H.
      assert (Hex : existsb (fun l => startswith l (key ++ "=")) lines = true)
        by (apply existsb_exists; eauto).
      congruence.
    + apply in_app_or in Hin as [Hin|[<-|[]]]; [|reflexivity].
      exfalso. unfold separator in Hin.
      destruct lines as [|l rest]; [contradiction|].
      destruct (blank _); [contradiction|].
      destruct Hin as [<-|[]]. rewrite starts_empty in Hs. discriminate.
Qed.

(** A run of upserts whose entries do not overlap leaves each key with
    its own entry and nothing else. *)
Lemma apply_updates_entries (updates : list (string * string)) :
  forall lines,
    independent_updates updates ->
    forall kv,
      In kv updates ->
      In (env_line (fst kv) (snd kv)) (apply_updates lines updates)
      /\ forall line,
           In line (apply_updates lines updates) ->
           startswith line (fst kv ++ "=") = true ->
           line = env_line (fst kv) (snd kv).
Proof.
  induction updates as [|kv0 rest IH]; intros lines Hind kv Hin;
    [contradiction|].
  destruct Hind as [Hfirst Hind]. cbn [apply_updates fold_left].
  destruct Hin as [<-|Hin].
  - split.
    + apply apply_updates_keeps_line; [apply upsert_lines_has_entry|].
      eapply Forall_impl; [|exact Hfirst]. now intros kv' [H _].
    + apply apply_updates_keeps_unique; [apply upsert_lines_unique|].
      eapply Forall_impl; [|exact Hfirst]. now intros kv' [_ H].
  - now apply IH.
Qed.

Lemma uint_no_linebreak (d : Decimal.uint) :
  no_linebreak (NilEmpty.string_of_uint d) = true.
Proof. induction d; cbn; auto. Qed.

Lemma str_of_int_no_linebreak (n : Z) : no_linebreak (str_of_int n) = true.
Proof.
  unfold str_of_int. destruct (Z.to_int n) as [d|d]; cbn.
  - destruct d; try reflexivity; apply (uint_no_linebreak (_ d)).
  - destruct d; try reflexivity; apply (uint_no_linebreak (_ d)).
Qed.

Lemma get_in {V : Type} (d : dict V) (key : string) (v : V) :
  get key d = Some v -> In (key, v) d.
Proof.
  induction d as [|[k v'] d IH]; [discriminate|]. cbn [get In].
  destruct (String.eqb_spec key k) as [->|_].
  - intros [= ->]. now left.
  - intros H. right. now apply IH.
Qed.

Lemma endpoint_url_no_linebreak (s : ServiceConfig) :
  no_linebreak (effective_host s) = true ->
  no_linebreak (endpoint_url s) = true.
Proof.
  intros H. unfold endpoint_url.
  rewrite !no_linebreak_app, H, str_of_int_no_linebreak. reflexivity.
Qed.

Lemma env_updates_no_linebreak (services : dict ServiceConfig) :
  forallb (fun item => no_linebreak (effective_host (snd item))) services
  = true ->
  Forall (fun kv => no_linebreak (snd kv) = true) (env_updates services).
Proof.
  intros Hall.
  assert (Hget : forall key s, get key services = Some s ->
                               no_linebreak (effective_host s) = true).
  { intros key s Hg. rewrite forallb_forall in Hall.
    exact (Hall _ (get_in _ _ _ Hg)). }
  unfold env_updates.
  destruct (get "homeassistant" services) as [ha|] eqn:Hha;
    [destruct (use_existing ha)|];
    destruct (get "ollama" services) as [ol|] eqn:Hol;
    try destruct (use_existing ol);
    destruct (get "postgres" services) as [pg|] eqn:Hpg;
    try destruct (use_existing pg);
    cbn [app]; repeat constructor; cbn [snd];
    eauto using endpoint_url_no_linebreak, str_of_int_no_linebreak.
Qed.

Lemma env_updates_independent (services : dict ServiceConfig) :
  independent_updates (env_updates services).
Proof.
  unfold env_updates.
  destruct (get "homeassistant" services) as [ha|];
    [destruct (use_existing ha)|];
    cbn [app independent_updates]; repeat split; repeat constructor.
Qed.

Lemma update_env_file_read_back (services : dict ServiceConfig)
    (content : option string) :
  forallb (fun item => no_linebreak (effective_host (snd item))) services
  = true ->
  file_lines (Some (update_env_file services content))
  = apply_updates (file_lines content) (env_updates services).
Proof.
  intros Hall. apply env_updates_no_linebreak in Hall.
  unfold update_env_file, env_updates, endpoint_url in *.
  destruct (get "homeassistant" services) as [ha|];
    [destruct (use_existing ha)|];
    destruct (get "ollama" services) as [ol|];
    try destruct (use_existing ol);
    destruct (get "postgres" services) as [pg|];
    try destruct (use_existing pg);
    cbn [app apply_updates fold_left fst snd] in *;
    repeat match goal with
           | H : Forall _ (_ :: _) |- _ => inversion H; clear H; subst
           end;
    cbn [snd] in *; unfold file_lines at 1;
    repeat (rewrite upsert_env_var_read_back by (reflexivity || assumption);
            unfold file_lines at 1);
    reflexivity.
Qed.

(** X19: what is in docker/.env after a successful save, when no
    effective host holds a line boundary.  Read back, the file is the
    old lines after the upserts of the save, made one after the other;
    each key that the save writes (OLLAMA_BASE_URL, DB_POSTGRESDB_HOST
    and DB_POSTGRESDB_PORT always, HA_URL when Home Assistant is reused)
    has its new entry in the file and no other entry; and every old line
    that starts with none of these keys is still there. *)
Theorem update_env_file_entries (services : dict ServiceConfig)
    (content : option string) :
  forallb (fun item => no_linebreak (effective_host (snd item))) services
  = true ->
  file_lines (Some (update_env_file services content))
  = apply_updates (file_lines content) (env_updates services)
  /\ (forall kv,
        In kv (env_updates services) ->
        In (env_line (fst kv) (snd kv))
          (file_lines (Some (update_env_file services content)))
        /\ forall line,
             In line (file_lines (Some (update_env_file services content))) ->
             startswith line (fst kv ++ "=") = true ->
             line = env_line (fst kv) (snd kv))
  /\ (forall line,
        In line (file_lines content) ->
        Forall (fun kv => startswith line (fst kv ++ "=") = false)
          (env_updates services) ->
        In line (file_lines (Some (update_env_file services content)))).
Proof.
  intros Hall. rewrite (update_env_file_read_back services content Hall).
  split; [reflexivity|]. split.
  - intros kv Hin.
    now apply apply_updates_entries; [apply env_updates_independent|].
  - intros line Hin Hother. now apply apply_updates_keeps_line.
Qed.

Lemma update_env_file_entries_witness :
  file_lines
    (Some (update_env_file Fixtures.external_stores (Some ("TZ=UTC" ++ nl))))
  = apply_updates (file_lines (Some ("TZ=UTC" ++ nl)))
      (env_updates Fixtures.external_stores)
  /\ (forall kv,
        In kv (env_updates Fixtures.external_stores) ->
        In (env_line (fst kv) (snd kv))
          (file_lines
             (Some (update_env_file Fixtures.external_stores
                      (Some ("TZ=UTC" ++ nl)))))
        /\ forall line,
             In line
               (file_lines
                  (Some (update_env_file Fixtures.external_stores
                           (Some ("TZ=UTC" ++ nl))))) ->
             startswith line (fst kv ++ "=") = true ->
             line = env_line (fst kv) (snd kv))
  /\ (forall line,
        In line (file_lines (Some ("TZ=UTC" ++ nl))) ->
        Forall (fun kv => startswith line (fst kv ++ "=") = false)
          (env_updates Fixtures.external_stores) ->
        In line
          (file_lines
             (Some (update_env_file Fixtures.external_stores
                      (Some ("TZ=UTC" ++ nl)))))).
Proof.
  apply (update_env_file_entries Fixtures.external_stores
           (Some ("TZ=UTC" ++ nl))).
  reflexivity.
Defined.

(** The file written for a registry that reuses postgres on port 6543:
    each appended entry is set off by an empty line. *)
Example update_env_file_external_stores :
  update_env_file Fixtures.external_stores (Some ("TZ=UTC" ++ nl))
  = "TZ=UTC" ++ nl ++ nl
    ++ "OLLAMA_BASE_URL=http://ollama:11434" ++ nl ++ nl
    ++ "DB_POSTGRESDB_HOST=localhost" ++ nl ++ nl
    ++ "DB_POSTGRESDB_PORT=6543" ++ nl.
Proof. reflexivity. Qed.

End EnvUpdateFacts.

(* ================================================================== *)
(** ** Presets and summaries of the guide                              *)
(* ================================================================== *)

Section GuideFacts.
Import Py.
Import DeployConfig.
Import LcarsGuide.

Lemma set_use_existing_same (s : ServiceConfig) :
  s = set_use_existing (use_existing s) s.
Proof. now destruct s. Qed.

(** X20: a preset keeps the keys of the registry and their order, and
    changes no field of any service other than [use_existing]. *)
Theorem apply_preset_changes_only_use_existing (preset : Preset)
    (services : dict ServiceConfig) :
  keys (apply_preset preset services) = keys services
  /\ forall key s,
       get key services = Some s ->
       exists s',
         get key (apply_preset preset services) = Some s'
         /\ same_but_use_existing s s'.
Proof.
  unfold same_but_use_existing. destruct preset; cbn [apply_preset].
  - split; [reflexivity|]. intros key s Hg. exists s.
    split; [exact Hg|apply set_use_existing_same].
  - split; [apply (keys_map_values (fun _ s => set_use_existing false s))|].
    intros key s Hg. eexists.
    rewrite (get_map_values (fun _ s => set_use_existing false s)), Hg.
    split; reflexivity.
  - split;
      [apply (keys_map_values
                (fun k s => set_use_existing (String.eqb k "postgres") s))|].
    intros key s Hg. eexists.
    rewrite (get_map_values
               (fun k s => set_use_existing (String.eqb k "postgres") s)), Hg.
    split; reflexivity.
  - split;
      [apply (keys_map_values
                (fun k s => set_use_existing (String.eqb k "ollama") s))|].
    intros key s Hg. eexists.
    rewrite (get_map_values
               (fun k s => set_use_existing (String.eqb k "ollama") s)), Hg.
    split; reflexivity.
  - split;
      [apply (keys_map_values
                (fun _ s => if can_use_existing s
                            then set_use_existing true s else s))|].
    intros key s Hg. eexists.
    rewrite (get_map_values
               (fun _ s => if can_use_existing s
                           then set_use_existing true s else s)), Hg.
    split; [reflexivity|].
    destruct (can_use_existing s); [reflexivity|apply set_use_existing_same].
Qed.

(** X21: what the presets disable in the override.  After Minimal
    Install no service is disabled; after Reuse All Infrastructure the
    disabled services are exactly those that can reuse infrastructure,
    in registry order; after Reuse Database Only nothing but postgres,
    and after Reuse LLM Server nothing but ollama, can be disabled. *)
Theorem preset_disabled_services (services : dict ServiceConfig) :
  disabled_services (apply_preset MinimalInstall services) = []
  /\ disabled_services (apply_preset ReuseAllInfrastructure services)
     = map fst (filter (fun item => can_use_existing (snd item)) services)
  /\ (forall key,
        In key (disabled_services (apply_preset ReuseDatabaseOnly services)) ->
        key = "postgres")
  /\ (forall key,
        In key (disabled_services (apply_preset ReuseLLMServer services)) ->
        key = "ollama").
Proof.
  rewrite !disabled_services_filter. repeat split.
  - induction services as [|[k s] rest IH]; [reflexivity|].
    cbn [apply_preset map filter fst snd] in *. exact IH.
  - induction services as [|[k s] rest IH]; [reflexivity|].
    cbn [apply_preset map filter fst snd] in *. unfold reused at 1.
    destruct (can_use_existing s) eqn:Hc; cbn [use_existing can_use_existing
      set_use_existing andb]; rewrite ?Hc, ?andb_false_r; cbn [map fst];
      now rewrite IH.
  - intros key Hin.
    apply in_map_iff in Hin as ([k s] & <- & Hin).
    apply filter_In in Hin as [Hin Hr]. cbn [apply_preset] in Hin.
    apply in_map_iff in Hin as ([k0 s0] & [= <- <-] & _).
    unfold reused in Hr. cbn in Hr. apply andb_true_iff in Hr as [Hr _].
    now apply String.eqb_eq in Hr.
  - intros key Hin.
    apply in_map_iff in Hin as ([k s] & <- & Hin).
    apply filter_In in Hin as [Hin Hr]. cbn [apply_preset] in Hin.
    apply in_map_iff in Hin as ([k0 s0] & [= <- <-] & _).
    unfold reused in Hr. cbn in Hr. apply andb_true_iff in Hr as [Hr _].
    now apply String.eqb_eq in Hr.
Qed.

(** X22: the rule that a service which cannot reuse infrastructure is
    never marked as reusing it.  Minimal Install establishes it, Reuse
    All Infrastructure keeps it, and the two single-service presets
    establish it provided the one service they switch on (postgres,
    ollama) can reuse infrastructure: they set the flag without looking
    at [can_use_existing]. *)
Theorem presets_and_reuse_allowed (services : dict ServiceConfig) :
  reuse_allowed (apply_preset MinimalInstall services)
  /\ (reuse_allowed services ->
      reuse_allowed (apply_preset ReuseAllInfrastructure services))
  /\ ((forall s, In ("postgres", s) services -> can_use_existing s = true) ->
      reuse_allowed (apply_preset ReuseDatabaseOnly services))
  /\ ((forall s, In ("ollama", s) services -> can_use_existing s = true) ->
      reuse_allowed (apply_preset ReuseLLMServer services)).
Proof.
  unfold reuse_allowed. repeat split.
  - intros key s Hin Hu. cbn [apply_preset] in Hin.
    apply in_map_iff in Hin as ([k0 s0] & [= <- <-] & _). discriminate.
  - intros Hall key s Hin Hu. cbn [apply_preset] in Hin.
    apply in_map_iff in Hin as ([k0 s0] & [= <- <-] & Hin0). cbn [snd] in *.
    destruct (can_use_existing s0) eqn:Hc; [exact Hc|now apply (Hall k0)].
  - intros Hpg key s Hin Hu. cbn [apply_preset] in Hin.
    apply in_map_iff in Hin as ([k0 s0] & [= <- <-] & Hin0). cbn in Hu.
    apply String.eqb_eq in Hu. subst k0. cbn. now apply Hpg.
  - intros Hol key s Hin Hu. cbn [apply_preset] in Hin.
    apply in_map_iff in Hin as ([k0 s0] & [= <- <-] & Hin0). cbn in Hu.
    apply String.eqb_eq in Hu. subst k0. cbn. now apply Hol.
Qed.

(** X23: the summary on a service checkbox tells the truth about
    resolution.  It says "deploy new" exactly when [use_existing] is
    off; an endpoint it shows is the effective host and port of the
    service; and when it asks for configuration, the effective host is
    still the default host. *)
Theorem config_summary_shows_effective (s : ServiceConfig) :
  (config_summary s = DeployNew <-> use_existing s = false)
  /\ (forall host port,
        config_summary s = ShowsEndpoint host port ->
        host = effective_host s /\ port = effective_port s)
  /\ (config_summary s = NeedsConfiguration ->
      effective_host s = default_host s).
Proof.
  unfold config_summary, effective_host, effective_port.
  destruct (use_existing s); repeat split; try discriminate; try reflexivity;
    destruct (truthy_str (custom_host s)), (truthy_str (detected_host s));
    try discriminate; try congruence.
Qed.

End GuideFacts.

(* ================================================================== *)
(** ** Saving and resuming a session                                   *)
(* ================================================================== *)

Section SessionFacts.
Import Py.
Import DeployConfig.
Import LcarsGuide.

Lemma load_saved (services : dict ServiceConfig) (path : string)
    (fs : FileSystem) :
  wf services ->
  load_deployment_config path (save_deployment_config services path fs)
  = Some services.
Proof.
  intros Hwf. unfold load_deployment_config, save_deployment_config.
  rewrite String.eqb_refl. cbn [get String.eqb Ascii.eqb Bool.eqb].
  rewrite services_document_map by exact Hwf.
  exact (load_services_saved services [] Hwf).
Qed.

(** X24: resuming a session.  With nothing in the session state, the
    services that the guide works with after a configuration was saved
    are the saved registry itself, provided the registry is not empty. *)
Theorem resume_after_save (services : dict ServiceConfig)
    (path : string) (fs : FileSystem) :
  wf services ->
  services <> [] ->
  _load_service_configs true None path
    (save_deployment_config services path fs)
  = Some services.
Proof.
  intros Hwf Hne. unfold _load_service_configs. cbn [negb].
  rewrite (load_saved services path fs Hwf).
  destruct services; [contradiction|reflexivity].
Qed.

Lemma resume_after_save_witness :
  _load_service_configs true None "docker/deployment_config.json"
    (save_deployment_config Fixtures.external_stores
       "docker/deployment_config.json" (fun _ => None))
  = Some Fixtures.external_stores.
Proof.
  apply (resume_after_save Fixtures.external_stores
           "docker/deployment_config.json" (fun _ => None)).
  - exact external_stores_wf.
  - discriminate.
Defined.


End SessionFacts.

(* ================================================================== *)
(** ** Container enumeration                                           *)
(* ================================================================== *)

Section ContainerFacts.
Import Py.
Import DeployConfig.

Lemma get_set {V : Type} (k k0 : string) (v : V) (d : dict V) :
  get k0 (set k v d) = if String.eqb k0 k then Some v else get k0 d.
Proof.
  induction d as [|[k' v'] d IH]; cbn [set get].
  - reflexivity.
  - destruct (String.eqb_spec k k') as [<-|Hne]; cbn [get].
    + now destruct (String.eqb k0 k).
    + destruct (String.eqb_spec k0 k') as [->|_].
      * destruct (String.eqb_spec k' k); [congruence|reflexivity].
      * exact IH.
Qed.

Lemma in_keys_set {V : Type} (k k0 : string) (v : V) (d : dict V) :
  In k0 (keys (set k v d)) <-> k0 = k \/ In k0 (keys d).
Proof.
  induction d as [|[k' v'] d IH]; cbn [set keys map fst In].
  - intuition.
  - destruct (String.eqb_spec k k') as [<-|Hne]; cbn [keys map fst In].
    + intuition.
    + fold (keys (set k v d)). fold (keys d). rewrite IH. intuition.
Qed.

Lemma set_wf {V : Type} (k : string) (v : V) (d : dict V) :
  wf d -> wf (set k v d).
Proof.
  unfold wf. induction d as [|[k' v'] d IH]; cbn [set keys map fst].
  - intros _. repeat constructor. intros [].
  - intros Hnd. apply NoDup_cons_iff in Hnd as [Hk Hnd].
    destruct (String.eqb_spec k k') as [<-|Hne]; cbn [keys map fst].
    + now constructor.
    + constructor; [|now apply IH].
      fold (keys (set k v d)). rewrite in_keys_set. intuition.
Qed.

Lemma scan_containers_result (service_keys : list string)
    (lines : list DockerLine) :
  forall acc containers,
    scan_containers service_keys lines acc = Some containers ->
    (forall name info,
        get name containers = Some info ->
        get name acc = Some info
        \/ (matches_service service_keys name = true
            /\ listed lines name info))
    /\ (forall name, In name (keys acc) -> In name (keys containers))
    /\ (forall container name,
          In (JsonValue (JObj container)) lines ->
          json_get "Names" (JStr "") container = JStr name ->
          matches_service service_keys name = true ->
          In name (keys containers))
    /\ (wf acc -> wf containers).
Proof.
  unfold listed, matches_service.
  induction lines as [|line rest IH]; intros acc containers Hscan.
  - injection Hscan as <-. repeat split; auto. intros ? ? [].
  - cbn [scan_containers] in Hscan.
    destruct line as [| |value].
    + destruct (IH _ _ Hscan) as (H1 & H2 & H3 & H4). repeat split; auto.
      * intros name info Hg. destruct (H1 _ _ Hg) as [|(Hm & c & Hin & Hc)];
          [now left|]. right. split; [exact Hm|]. exists c. split; [now right|].
        exact Hc.
      * intros c name [Hin|Hin]; [discriminate|]. now apply H3.
    + destruct (IH _ _ Hscan) as (H1 & H2 & H3 & H4). repeat split; auto.
      * intros name info Hg. destruct (H1 _ _ Hg) as [|(Hm & c & Hin & Hc)];
          [now left|]. right. split; [exact Hm|]. exists c. split; [now right|].
        exact Hc.
      * intros c name [Hin|Hin]; [discriminate|]. now apply H3.
    + destruct value as [| | | | |container]; try discriminate.
      destruct (json_get "Names" (JStr "") container) as [| | |n| |] eqn:Hn;
        try discriminate.
      destruct (existsb (fun svc => contains svc (lower n)) service_keys)
        eqn:Hm.
      * destruct (IH _ _ Hscan) as (H1 & H2 & H3 & H4). repeat split.
        -- intros name info Hg. destruct (H1 _ _ Hg) as [Hacc|Hrest].
           ++ rewrite get_set in Hacc.
              destruct (String.eqb_spec name n) as [->|_]; [|now left].
              injection Hacc as <-. right. split; [exact Hm|].
              exists container. split; [now left|]. split; [exact Hn|].
              reflexivity.
           ++ destruct Hrest as (Hm' & c & Hin & Hc). right.
              split; [exact Hm'|]. exists c. split; [now right|]. exact Hc.
        -- intros name Hin. apply H2. apply in_keys_set. now right.
        -- intros c name [Hin|Hin] Hc Hmatch.
           ++ injection Hin as <-. rewrite Hn in Hc. injection Hc as <-.
              apply H2. apply in_keys_set. now left.
           ++ now apply (H3 c).
        -- intros Hwf. apply H4. now apply set_wf.
      * destruct (IH _ _ Hscan) as (H1 & H2 & H3 & H4). repeat split; auto.
        -- intros name info Hg.
           destruct (H1 _ _ Hg) as [|(Hm' & c & Hin & Hc)]; [now left|].
           right. split; [exact Hm'|]. exists c. split; [now right|]. exact Hc.
        -- intros c name [Hin|Hin] Hc Hmatch; [|now apply (H3 c)].
           injection Hin as <-. rewrite Hn in Hc. injection Hc as <-.
           congruence.
Qed.

(** X27: container enumeration.  When docker is missing, times out or
    exits with an error, the result is the empty mapping.  Otherwise, in
    a result that comes back, every entry records a line of the output
    whose name holds the key of a service (compared in lower case);
    every such line has its name in the result; and no name is there
    twice. *)
Theorem check_docker_containers_result (service_keys : list string) :
  check_docker_containers DockerNotFound service_keys = Some []
  /\ check_docker_containers DockerTimeout service_keys = Some []
  /\ (forall returncode lines,
        returncode <> 0 ->
        check_docker_containers (DockerExit returncode lines) service_keys
        = Some [])
  /\ (forall lines containers,
        check_docker_containers (DockerExit 0 lines) service_keys
        = Some containers ->
        (forall name info,
            get name containers = Some info ->
            matches_service service_keys name = true
            /\ listed lines name info)
        /\ (forall container name,
              In (JsonValue (JObj container)) lines ->
              json_get "Names" (JStr "") container = JStr name ->
              matches_service service_keys name = true ->
              In name (keys containers))
        /\ wf containers).
Proof.
  split; [reflexivity|]. split; [reflexivity|]. split.
  - intros returncode lines Hne. unfold check_docker_containers.
    apply Z.eqb_neq in Hne. now rewrite Hne.
  - intros lines containers Hscan. cbn in Hscan.
    destruct (scan_containers_result _ _ _ _ Hscan) as (H1 & _ & H3 & H4).
    split; [|split].
    + intros name info Hg.
      destruct (H1 _ _ Hg) as [Hacc|Hl]; [discriminate|exact Hl].
    + exact H3.
    + apply H4. constructor.
Qed.

(** Two containers of the stack and one that is not. *)
Example check_docker_containers_example :
  option_map keys
    (check_docker_containers
       (DockerExit 0
          [JsonValue (JObj [("Names", JStr "LCARS-Postgres");
                            ("State", JStr "running")]);
           NotJson;
           JsonValue (JObj [("Names", JStr "traefik")]);
           JsonValue (JObj [("Names", JStr "lcars-n8n")])])
       (keys DEFAULT_SERVICES))
  = Some ["LCARS-Postgres"; "lcars-n8n"].
Proof. reflexivity. Qed.

End ContainerFacts.

(* ================================================================== *)
(** ** A scan and the override                                         *)
(* ================================================================== *)

Section ScanOverride.
Import Py.
Import DeployConfig.

Lemma detect_service_effective_port (env : Env) (t : ServiceConfig) :
  detected_port t = None ->
  effective_port (detect_service env t) = effective_port t.
Proof.
  intros Hp. unfold detect_service.
  destruct (can_use_existing t); cbn [negb]; [|reflexivity].
  destruct (check_port_available env _ _); [|reflexivity].
  destruct (check_service_health env _) as [[|] msg];
    unfold effective_port; cbn; rewrite Hp; cbn;
    destruct (truthy_int (custom_port t)), (Z.eqb (default_port t) 0);
    reflexivity.
Qed.

Lemma detect_service_override_of (env : Env) (k : string)
    (t : ServiceConfig) :
  use_existing t = false -> detected_port t = None ->
  reused (detect_service env t) = false
  /\ override_of (k, detect_service env t) = override_of (k, t).
Proof.
  intros Hu Hp.
  assert (Hr : reused (detect_service env t) = false).
  { unfold reused. now rewrite (detect_service_keeps_fresh env t Hu). }
  split; [exact Hr|]. unfold override_of. cbn [fst snd]. rewrite Hr.
  unfold reused. rewrite Hu. cbn [andb].
  rewrite (detect_service_effective_port env t Hp).
  destruct (detect_service_same_descriptor env t) as (_ & _ & _ & -> & _).
  reflexivity.
Qed.

Lemma fresh_scan_lists (env : Env) (catalogue : dict ServiceConfig) :
  fresh_registry catalogue = true ->
  filter (fun item => reused (snd item))
    (map (fun item => (fst item, detect_service env (snd item))) catalogue)
  = []
  /\ filter (fun item => reused (snd item)) catalogue = []
  /\ flat_map override_of
       (map (fun item => (fst item, detect_service env (snd item))) catalogue)
     = flat_map override_of catalogue.
Proof.
  unfold fresh_registry.
  induction catalogue as [|[k t] rest IH]; [auto|].
  cbn [forallb map filter flat_map fst snd]. intros H.
  apply andb_true_iff in H as [H Hrest].
  apply andb_true_iff in H as [H Hdp]. apply andb_true_iff in H as [Hu Hdh].
  apply negb_true_iff in Hu.
  destruct (detected_port t) eqn:Hp; [discriminate|].
  destruct (IH Hrest) as (-> & -> & ->).
  destruct (detect_service_override_of env k t Hu Hp) as [-> ->].
  unfold reused at 1. rewrite Hu. auto.
Qed.

(** X28: a scan alone never changes the override.  For a registry in
    which every service is to be deployed fresh and nothing was detected
    yet, the override generated from the result of a scan is the
    override generated from the registry itself, whatever the scan
    finds. *)
Theorem scan_keeps_override (env : Env) (catalogue : dict ServiceConfig) :
  wf catalogue ->
  fresh_registry catalogue = true ->
  generate_docker_compose_override (detect_existing_services env catalogue)
  = generate_docker_compose_override catalogue.
Proof.
  intros Hwf Hfresh.
  rewrite (detect_existing_services_map env catalogue Hwf).
  destruct (fresh_scan_lists env catalogue Hfresh) as (Hd & Hd' & Ho).
  rewrite !override_sections.
  rewrite !disabled_services_filter, !port_overrides_flat_map, Hd, Hd', Ho.
  reflexivity.
Qed.

Lemma scan_keeps_override_witness :
  generate_docker_compose_override
    (detect_existing_services
       (Fixtures.answering_with 500 "Internal Server Error") DEFAULT_SERVICES)
  = generate_docker_compose_override DEFAULT_SERVICES.
Proof.
  apply (scan_keeps_override
           (Fixtures.answering_with 500 "Internal Server Error")
           DEFAULT_SERVICES).
  - exact DEFAULT_SERVICES_wf.
  - reflexivity.
Defined.

End ScanOverride.
